(** * Certificate maker: the batch generator of [word.py]

    A shallow embedding of [sanitize_certificate_id], [generate_pdf],
    [process_certificates] and the form's [on_generate], with the
    properties of the identifier sanitizer, of the batch loop and of the
    form.

    Modelling choices.
    - The text of a cell is a Rocq [string]; a character stands for the
      code point of the same number (below 256).  Whitespace is Python's
      [str.isspace] on that range, and casing is Python's on that range.
      Title-casing can leave the range (the title forms of U+00B5, U+00DF
      and U+00FF), so the text of a run is a list of code points.
    - A spreadsheet cell holds [None], text, an integer or a boolean.
      Floating-point and date cells are outside the model.
    - The external services (template loader, document writer, converter)
      are parameters of the run, collected in [World]; each may fail.
    - The store is the content of the output directory, a finite map from
      files to their content.  Which file a name joined to the output
      directory denotes is the host's matter ([pathlib] drops the [.]
      components of a path, some hosts fold case): it is the parameter
      [resolve] of the world.  The template file lies outside of the
      store. *)

From Stdlib Require Import ZArith Ascii DecimalString Bool.
From stdpp Require Import gmap strings list.

Set Warnings "-clear-no-such-hyp".

Local Open Scope Z_scope.

(** ** Python values and text *)

Module Py.

(** The values a spreadsheet cell can hold. *)
Inductive Value : Type :=
  | VNone
  | VStr (s : string)
  | VInt (z : Z)
  | VBool (b : bool).

(** [bool(v)]: [None], the empty text, zero and [False] are falsy. *)
Definition truthy (v : Value) : bool :=
  match v with
  | VNone => false
  | VStr s => negb (String.eqb s "")
  | VInt z => negb (z =? 0)
  | VBool b => b
  end.

(** [str(v)]. *)
Definition str (v : Value) : string :=
  match v with
  | VNone => "None"
  | VStr s => s
  | VInt z => NilZero.string_of_int (Z.to_int z)
  | VBool true => "True"
  | VBool false => "False"
  end.

(** [a or b]. *)
Definition or_else (a b : Value) : Value := if truthy a then a else b.

Definition code (c : ascii) : N := N_of_ascii c.

(** [c.isspace()] for a code point below 256: TAB..CR, FS..US, SPACE,
    NEL (0x85) and NBSP (0xA0). *)
Definition isspace (c : ascii) : bool :=
  let n := code c in
  ((9 <=? n) && (n <=? 13) || (28 <=? n) && (n <=? 32)
   || (n =? 133) || (n =? 160))%N.

Definition in_range (lo hi n : N) : bool := ((lo <=? n) && (n <=? hi))%N.

(** Text that may leave the 8-bit range: a list of code points. *)
Abbreviation Text := (list N).

Fixpoint wide (s : string) : Text :=
  match s with
  | EmptyString => []
  | String c s' => code c :: wide s'
  end.

(** Casing of the code points below 256, as Python has it: the upper-case
    letters are A..Z, U+00C0..U+00D6 and U+00D8..U+00DE; the lower-case
    ones are a..z, U+00AA, U+00B5, U+00BA, U+00DF..U+00F6 and
    U+00F8..U+00FF. *)
Definition isupper (c : ascii) : bool :=
  in_range 65 90 (code c) || in_range 192 214 (code c)
  || in_range 216 222 (code c).
Definition islower (c : ascii) : bool :=
  in_range 97 122 (code c) || (code c =? 170)%N || (code c =? 181)%N
  || (code c =? 186)%N || in_range 223 246 (code c)
  || in_range 248 255 (code c).
Definition iscased (c : ascii) : bool := isupper c || islower c.

(** The full lower-case form of a character. *)
Definition tolower_full (c : ascii) : Text :=
  if isupper c then [(code c + 32)%N] else [code c].

(** The full title-case form of a character: U+00B5 gives U+039C, U+00DF
    gives "Ss", U+00FF gives U+0178; U+00AA and U+00BA have none. *)
Definition totitle_full (c : ascii) : Text :=
  let n := code c in
  if (n =? 181)%N then [924%N]
  else if (n =? 223)%N then [83%N; 115%N]
  else if (n =? 255)%N then [376%N]
  else if in_range 97 122 n || in_range 224 246 n || in_range 248 254 n
       then [(n - 32)%N]
       else [n].

(** [s.replace(old, new)] for a one-character [old]. *)
Fixpoint replace1 (old : ascii) (new : string) (s : string) : string :=
  match s with
  | EmptyString => EmptyString
  | String c s' =>
      if Ascii.eqb c old then new +:+ replace1 old new s'
      else String c (replace1 old new s')
  end.

Fixpoint lstrip (s : string) : string :=
  match s with
  | EmptyString => EmptyString
  | String c s' => if isspace c then lstrip s' else s
  end.

Fixpoint rstrip (s : string) : string :=
  match s with
  | EmptyString => EmptyString
  | String c s' =>
      match rstrip s' with
      | EmptyString => if isspace c then EmptyString else String c EmptyString
      | r => String c r
      end
  end.

(** [s.strip()]. *)
Definition strip (s : string) : string := rstrip (lstrip s).

(** [s.title()]: a character that follows a cased character is lowered,
    any other is title-cased; the flag is the casedness of the character
    just read. *)
Fixpoint title_from (previous_is_cased : bool) (s : string) : Text :=
  match s with
  | EmptyString => []
  | String c s' =>
      (if previous_is_cased then tolower_full c else totitle_full c)
      ++ title_from (iscased c) s'
  end.

Definition title (s : string) : Text := title_from false s.

(** Observations on text used by the statements below. *)
Fixpoint contains (c : ascii) (s : string) : bool :=
  match s with
  | EmptyString => false
  | String d s' => Ascii.eqb d c || contains c s'
  end.

Definition first_char (s : string) : option ascii :=
  match s with
  | EmptyString => None
  | String c _ => Some c
  end.

Fixpoint last_char (s : string) : option ascii :=
  match s with
  | EmptyString => None
  | String c EmptyString => Some c
  | String _ s' => last_char s'
  end.

Definition starts_with_space (s : string) : bool :=
  match first_char s with
  | Some c => isspace c
  | None => false
  end.

Definition ends_with_space (s : string) : bool :=
  match last_char s with
  | Some c => isspace c
  | None => false
  end.

Fixpoint all_space (s : string) : bool :=
  match s with
  | EmptyString => true
  | String c s' => isspace c && all_space s'
  end.

(** A text of ASCII characters is in title form from a given flag when
    each of its letters is upper case exactly where the character before
    it is not a letter. *)
Definition ascii_upper (n : N) : bool := in_range 65 90 n.
Definition ascii_lower (n : N) : bool := in_range 97 122 n.

Fixpoint titled_from (previous_is_cased : bool) (t : Text) : bool :=
  match t with
  | [] => true
  | n :: t' =>
      (if ascii_upper n || ascii_lower n then
         if previous_is_cased then ascii_lower n else ascii_upper n
       else true)
      && titled_from (ascii_upper n || ascii_lower n) t'
  end.

(** Every character of the text is below 128. *)
Fixpoint ascii_only (s : string) : bool :=
  match s with
  | EmptyString => true
  | String c s' => (code c <? 128)%N && ascii_only s'
  end.

End Py.

(** ** The identifier sanitizer *)

Definition sanitize_certificate_id (certificate_id : Py.Value) : string :=
  Py.strip (Py.replace1 "+" "" (Py.str certificate_id)).

(** ** Documents, files and the outside world *)

Record Font := { font_name : option string; font_size : option Z }.
Record Run := { run_text : Py.Text; run_font : Font }.
Record Paragraph := { runs : list Run }.
Record Document := { paragraphs : list Paragraph }.

(** A file of the output directory: an editable document, or the rendering
    of one. *)
Inductive File : Type :=
  | Docx (d : Document)
  | Pdf (d : Document).

(** A spreadsheet row: the values of its cells, left to right. *)
Abbreviation Row := (list Py.Value).

Inductive Error : Type :=
  | TemplateError    (* Document(template_path) failed *)
  | WorkbookError    (* openpyxl.open(excel_path) failed *)
  | IndexError       (* a subscript out of range *)
  | SaveError        (* doc.save failed *)
  | ConvertError.    (* docx2pdf.convert failed *)

(** The external collaborators: what the two input paths hold, whether
    writing or converting a given document under a given name succeeds,
    and which file of the output directory a name joined to it denotes. *)
Record World := {
  open_document : string -> option Document;
  open_workbook : string -> option (list Row);
  save_ok : string -> Document -> bool;
  convert_ok : string -> Document -> bool;
  resolve : string -> string
}.

(** The state a run acts on: the files of the output directory, keyed as
    [resolve] tells; the messages handed to the progress callback (oldest
    first); and the names, as joined to the output directory, of the
    rendered files written by the converter (oldest first). *)
Record State := {
  files : gmap string File;
  log : list string;
  converted : list string
}.

(** ** A state and exception monad *)

Inductive Result (A : Type) : Type :=
  | Ok (a : A)
  | Raise (e : Error).
Arguments Ok {A} a.
Arguments Raise {A} e.

Definition M (A : Type) : Type := State -> Result A * State.

Definition ret {A} (a : A) : M A := fun st => (Ok a, st).
Definition raise {A} (e : Error) : M A := fun st => (Raise e, st).
Definition bind {A B} (m : M A) (k : A -> M B) : M B :=
  fun st =>
    match m st with
    | (Ok a, st') => k a st'
    | (Raise e, st') => (Raise e, st')
    end.

Declare Scope py_scope.
Delimit Scope py_scope with py.
Notation "x <- m ;; k" := (bind m (fun x => k))
  (at level 100, m at next level, right associativity) : py_scope.
Notation "m ;;; k" := (bind m (fun _ => k))
  (at level 100, right associativity) : py_scope.
Local Open Scope py_scope.

(** [l[i]]: raises [IndexError] out of range. *)
Definition subscript {A} (l : list A) (i : nat) : M A :=
  match l !! i with
  | Some x => ret x
  | None => raise IndexError
  end.

Definition modify (f : State -> State) : M unit := fun st => (Ok tt, f st).
Definition get_files : M (gmap string File) := fun st => (Ok (files st), st).

(** ** Constants of the module *)

Definition NAME_PARAGRAPH_INDEX : nat := 0.
Definition NAME_RUN_INDEX : nat := 0.
Definition FONT_NAME : string := "Calibri".
Definition FONT_SIZE_PT : Z := 16.

Definition HEADER_ROW_INDEX : nat := 0.
Definition ID_COLUMN_INDEX : nat := 0.
Definition NAME_COLUMN_INDEX : nat := 1.

(** [docx.shared.Pt]: a length in English Metric Units. *)
Definition Pt (points : Z) : Z := points * 12700.

(** ** Rendering one certificate *)

(** [run.font.name = n; run.font.size = s]. *)
Definition set_font (n : string) (s : Z) (r : Run) : Run :=
  {| run_text := run_text r;
     run_font := {| font_name := Some n; font_size := Some s |} |}.

(** [run.add_text(t)]: the text is appended to the run. *)
Definition add_text (t : Py.Text) (r : Run) : Run :=
  {| run_text := run_text r ++ t; run_font := run_font r |}.

(** The text written for a participant name. *)
Definition display_text (participant_name : Py.Value) : Py.Text :=
  let display_name :=
    Py.strip (Py.str (Py.or_else participant_name (Py.VStr ""))) in
  if Py.truthy (Py.VStr display_name) then Py.title display_name
  else Py.wide " ".

(** The run is a view of the document: what is done to it is done to the
    document.  [put_run] writes a run back at its place. *)
Definition put_run (doc : Document) (p : Paragraph) (r : Run) : Document :=
  {| paragraphs :=
       <[NAME_PARAGRAPH_INDEX := {| runs := <[NAME_RUN_INDEX := r]> (runs p) |}]>
         (paragraphs doc) |}.

(** Lines 25 to 32: load the template and fill the placeholder run. *)
Definition fill_template (w : World) (template_path : string)
    (participant_name : Py.Value) : M Document :=
  doc <- match open_document w template_path with
         | Some d => ret d
         | None => raise TemplateError
         end;;
  par <- subscript (paragraphs doc) NAME_PARAGRAPH_INDEX;;
  run <- subscript (runs par) NAME_RUN_INDEX;;
  let run := set_font FONT_NAME (Pt FONT_SIZE_PT) run in
  let run := add_text (display_text participant_name) run in
  ret (put_run doc par run).

(** [doc.save(output_dir / name)]. *)
Definition save (w : World) (doc : Document) (name : string) : M unit :=
  if save_ok w name doc
  then modify (fun st => {| files := <[resolve w name := Docx doc]> (files st);
                            log := log st; converted := converted st |})
  else raise SaveError.

(** [docx2pdf.convert(output_dir / src, output_dir / dst)]: renders the
    document found at [src]. *)
Definition convert (w : World) (src dst : string) : M unit :=
  fs <- get_files;;
  match fs !! resolve w src with
  | Some (Docx d) =>
      if convert_ok w dst d
      then modify (fun st => {| files := <[resolve w dst := Pdf d]> (files st);
                                log := log st;
                                converted := converted st ++ [dst] |})
      else raise ConvertError
  | _ => raise ConvertError
  end.

(** [(output_dir / name).unlink(missing_ok=True)]. *)
Definition unlink (w : World) (name : string) : M unit :=
  modify (fun st => {| files := delete (resolve w name) (files st);
                       log := log st; converted := converted st |}).

(** The output directory is the store; [doc_file] and [pdf_file] are the
    names joined to it, and [save], [convert] and [unlink] reach the files
    these names denote. *)
Definition generate_pdf (w : World) (template_path : string)
    (certificate_id participant_name : Py.Value) : M unit :=
  doc <- fill_template w template_path participant_name;;
  let clean_id := sanitize_certificate_id certificate_id in
  let doc_file := clean_id +:+ ".docx" in
  let pdf_file := clean_id +:+ ".pdf" in
  save w doc doc_file;;;
  convert w doc_file pdf_file;;;
  unlink w doc_file.

(** ** The batch loop *)

Definition progress_message (certificate_id participant_name : Py.Value) : string :=
  "Processing: " +:+ Py.str certificate_id +:+ " -> " +:+ Py.str participant_name.

(** [log_callback] tells whether a callback was supplied; its calls are
    recorded in [log]. *)
Definition call_log (log_callback : bool) (message : string) : M unit :=
  if log_callback
  then modify (fun st => {| files := files st; log := log st ++ [message];
                            converted := converted st |})
  else ret tt.

(** The body of the [for] over [enumerate(workbook.active.rows)], from
    index [row_index] on. *)
Fixpoint rows_loop (w : World) (template_path : string) (log_callback : bool)
    (row_index : nat) (rows : list Row) (count : nat) : M nat :=
  match rows with
  | [] => ret count
  | row :: rest =>
      if Nat.eqb row_index HEADER_ROW_INDEX
      then rows_loop w template_path log_callback (S row_index) rest count
      else
        certificate_id <- subscript row ID_COLUMN_INDEX;;
        if negb (Py.truthy certificate_id)
        then rows_loop w template_path log_callback (S row_index) rest count
        else
          participant_name <- subscript row NAME_COLUMN_INDEX;;
          call_log log_callback (progress_message certificate_id participant_name);;;
          generate_pdf w template_path certificate_id participant_name;;;
          rows_loop w template_path log_callback (S row_index) rest (count + 1)
  end.

Definition process_certificates (w : World) (template_path excel_path : string)
    (log_callback : bool) : M nat :=
  match open_workbook w excel_path with
  | None => raise WorkbookError
  | Some rows => rows_loop w template_path log_callback 0 rows 0
  end.

(** ** Derived forms used in the statements *)

(** A world that differs from [w] in the rows of the spreadsheet only. *)
Definition set_workbook (w : World) (rows : list Row) : World :=
  {| open_document := open_document w;
     open_workbook := fun _ => Some rows;
     save_ok := save_ok w;
     convert_ok := convert_ok w;
     resolve := resolve w |}.

(** What [fill_template] computes, as a function of the loaded template. *)
Definition fill (doc : Document) (participant_name : Py.Value) : Result Document :=
  match paragraphs doc !! NAME_PARAGRAPH_INDEX with
  | None => Raise IndexError
  | Some par =>
      match runs par !! NAME_RUN_INDEX with
      | None => Raise IndexError
      | Some run =>
          Ok (put_run doc par
                (add_text (display_text participant_name)
                   (set_font FONT_NAME (Pt FONT_SIZE_PT) run)))
      end
  end.

Definition load_and_fill (w : World) (template_path : string)
    (participant_name : Py.Value) : Result Document :=
  match open_document w template_path with
  | None => Raise TemplateError
  | Some doc => fill doc participant_name
  end.

(** The state after the document was saved, and after a whole rendering. *)
Definition saved (w : World) (clean_id : string) (doc : Document)
    (st : State) : State :=
  {| files := <[resolve w (clean_id +:+ ".docx") := Docx doc]> (files st);
     log := log st; converted := converted st |}.

Definition rendered (w : World) (clean_id : string) (doc : Document)
    (st : State) : State :=
  {| files := delete (resolve w (clean_id +:+ ".docx"))
                (<[resolve w (clean_id +:+ ".pdf") := Pdf doc]>
                   (<[resolve w (clean_id +:+ ".docx") := Docx doc]> (files st)));
     log := log st;
     converted := converted st ++ [clean_id +:+ ".pdf"] |}.

Definition logged (log_callback : bool) (message : string) (st : State) : State :=
  if log_callback
  then {| files := files st; log := log st ++ [message];
          converted := converted st |}
  else st.

(** The body of the loop for a row that is not the header, and the loop
    over such rows. *)
Definition row_body (w : World) (template_path : string) (log_callback : bool)
    (row : Row) (count : nat) : M nat :=
  certificate_id <- subscript row ID_COLUMN_INDEX;;
  if negb (Py.truthy certificate_id) then ret count
  else
    participant_name <- subscript row NAME_COLUMN_INDEX;;
    call_log log_callback (progress_message certificate_id participant_name);;;
    generate_pdf w template_path certificate_id participant_name;;;
    ret (count + 1)%nat.

Fixpoint data_rows (w : World) (template_path : string) (log_callback : bool)
    (rows : list Row) (count : nat) : M nat :=
  match rows with
  | [] => ret count
  | row :: rest =>
      count' <- row_body w template_path log_callback row count;;
      data_rows w template_path log_callback rest count'
  end.

(** A data row the loop renders without failure: at least two cells, the
    first truthy, a template that loads and has its placeholder, and a
    document that is saved and converted under the row's names. *)
Definition renders (w : World) (template_path : string) (row : Row) : bool :=
  match row with
  | certificate_id :: participant_name :: _ =>
      Py.truthy certificate_id
      && match load_and_fill w template_path participant_name with
         | Ok doc =>
             save_ok w (sanitize_certificate_id certificate_id +:+ ".docx") doc
             && convert_ok w (sanitize_certificate_id certificate_id +:+ ".pdf") doc
         | Raise _ => false
         end
  | _ => false
  end.

(** On the host no name ending in [.pdf] denotes the file of a name ending
    in [.docx]. *)
Definition apart (w : World) : Prop :=
  forall s t, resolve w (s +:+ ".pdf") <> resolve w (t +:+ ".docx").

Definition row_stem (row : Row) : string :=
  match row with
  | certificate_id :: _ => sanitize_certificate_id certificate_id
  | [] => ""
  end.

Definition pdf_file (row : Row) : string := row_stem row +:+ ".pdf".
Definition docx_file (row : Row) : string := row_stem row +:+ ".docx".

(** The files these names denote in the output directory. *)
Definition pdf_at (w : World) (row : Row) : string := resolve w (pdf_file row).
Definition docx_at (w : World) (row : Row) : string := resolve w (docx_file row).

(** What a file holds after the rows were rendered without failure, from
    what it held before: each counted row removes its [.docx] file and
    writes its [.pdf] file, in row order. *)
Fixpoint file_after (w : World) (template_path : string) (rows : list Row)
    (file : string) (held : option File) : option File :=
  match rows with
  | [] => held
  | row :: rest =>
      file_after w template_path rest file
        (match row with
         | certificate_id :: participant_name :: _ =>
             if Py.truthy certificate_id then
               if decide (file = docx_at w row) then None
               else if decide (file = pdf_at w row) then
                 match load_and_fill w template_path participant_name with
                 | Ok doc => Some (Pdf doc)
                 | Raise _ => held
                 end
               else held
             else held
         | _ => held
         end)
  end.

(** A template with a first run in its first paragraph. *)
Definition has_placeholder (doc : Document) : bool :=
  match paragraphs doc with
  | {| runs := _ :: _ |} :: _ => true
  | _ => false
  end.

(** ** Sample inputs *)

Definition demo_template : Document :=
  {| paragraphs :=
       [ {| runs := [ {| run_text := Py.wide "To: ";
                         run_font := {| font_name := Some "Arial";
                                        font_size := Some 152400 |} |};
                      {| run_text := Py.wide "!";
                         run_font := {| font_name := None; font_size := None |} |} ] |};
         {| runs := [ {| run_text := Py.wide "Congratulations";
                         run_font := {| font_name := None; font_size := None |} |} ] |} ] |}.

(** A host on which a name denotes the file of that very name. *)
Definition demo_world : World :=
  {| open_document := fun _ => Some demo_template;
     open_workbook := fun _ => None;
     save_ok := fun _ _ => true;
     convert_ok := fun _ _ => true;
     resolve := fun name => name |}.

(** A host on which a leading [./] of a name is dropped, as [pathlib]
    does when it joins the name to the output directory. *)
Definition drop_dot (name : string) : string :=
  match name with
  | String "." (String "/" rest) => rest
  | _ => name
  end.

Definition dotted_world : World :=
  {| open_document := fun _ => Some demo_template;
     open_workbook := fun _ => None;
     save_ok := fun _ _ => true;
     convert_ok := fun _ _ => true;
     resolve := drop_dot |}.

(** Two rows whose identifiers differ and whose files are one. *)
Definition dotted_sheet : list Row :=
  [ [Py.VStr "Id"; Py.VStr "Name"];
    [Py.VStr "A"; Py.VStr "ann lee"];
    [Py.VStr "./A"; Py.VStr "bob ray"] ].

Definition empty_state : State :=
  {| files := ∅; log := []; converted := [] |}.

(** [demo_template] with a display text written into its placeholder. *)
Definition demo_fill (text : string) : Document :=
  {| paragraphs :=
       [ {| runs := [ {| run_text := Py.wide ("To: " +:+ text);
                         run_font := {| font_name := Some "Calibri";
                                        font_size := Some 203200 |} |};
                      {| run_text := Py.wide "!";
                         run_font := {| font_name := None; font_size := None |} |} ] |};
         {| runs := [ {| run_text := Py.wide "Congratulations";
                         run_font := {| font_name := None; font_size := None |} |} ] |} ] |}.

Definition demo_header : Row := [Py.VStr "Id"; Py.VStr "Name"].
Definition row_A : Row := [Py.VStr "A"; Py.VStr "ann lee"].
Definition row_B : Row := [Py.VStr "B"; Py.VStr "bob ray"].
Definition row_C : Row := [Py.VStr "C"; Py.VStr "cy"].

(** A directory that already holds two files. *)
Definition stocked_state : State :=
  {| files := {[ "notes.docx" := Docx demo_template; "A.docx" := Docx demo_template ]};
     log := []; converted := [] |}.

(** Two rows with the same identifier, after a header. *)
Definition twin_sheet : list Row :=
  [ [Py.VStr "Id"; Py.VStr "Name"];
    [Py.VStr "A"; Py.VStr "ann lee"];
    [Py.VStr "A"; Py.VStr "bob ray"] ].

(** A world whose converter fails on the file [B.pdf]. *)
Definition failing_world : World :=
  {| open_document := fun _ => Some demo_template;
     open_workbook := fun _ => None;
     save_ok := fun _ _ => true;
     convert_ok := fun name _ => negb (String.eqb name "B.pdf");
     resolve := fun name => name |}.

(** ** Further observations on text *)

(** Every character of the text satisfies [p]. *)
Fixpoint all_chars (p : ascii -> bool) (s : string) : bool :=
  match s with
  | EmptyString => true
  | String c s' => p c && all_chars p s'
  end.

(** The lower-case form of a text, as far as its ASCII letters go. *)
Definition lower_code (n : N) : N := if Py.ascii_upper n then (n + 32)%N else n.
Definition lower_ascii (t : Py.Text) : Py.Text := map lower_code t.

(** A decimal digit or the minus sign. *)
Definition plain_char (c : ascii) : bool :=
  ((48 <=? Py.code c) && (Py.code c <=? 57) || (Py.code c =? 45))%N.

(** A row the loop counts: its first cell is truthy. *)
Definition counted (row : Row) : bool :=
  match row with
  | certificate_id :: _ => Py.truthy certificate_id
  | [] => false
  end.

(** The progress message of a row with two cells or more. *)
Definition row_message (row : Row) : string :=
  match row with
  | certificate_id :: participant_name :: _ =>
      progress_message certificate_id participant_name
  | _ => ""
  end.

(** A state transformer either leaves a file alone or sets it to a value
    that does not depend on the state. *)
Definition steady (T : State -> State) (n : string) : Prop :=
  (forall st, files (T st) !! n = files st !! n)
  \/ (exists v, forall st, files (T st) !! n = v).

(** ** The form: [CertificateFrame.on_generate] *)

Inductive Icon : Type := ICON_WARNING | ICON_INFORMATION | ICON_ERROR.

(** A call of [wx.MessageBox(message, caption, style)]. *)
Record MessageBox := {
  box_message : string;
  box_caption : string;
  box_style : Icon
}.

(** The host of the form: what [Path(p).is_file()] and [Path(p).is_dir()]
    answer for the text [p], and the text [str(exc)] of an exception. *)
Record Host := {
  is_file : string -> bool;
  is_dir : string -> bool;
  exc_text : Error -> string
}.

(** The form: the text of the three path fields, whether the button is
    enabled, the message boxes shown so far (oldest first), and the state
    the batch acts on.  The log area holds the lines of [log run_state]:
    [self.log] is the progress callback, and the directory of [run_state]
    is the one the output field names. *)
Record Frame := {
  template_ctrl : string;
  excel_ctrl : string;
  output_ctrl : string;
  generate_btn : bool;
  shown : list MessageBox;
  run_state : State
}.

(** The text of the log area: [self.log] appends the message and a line
    feed. *)
Definition log_ctrl (f : Frame) : string :=
  foldr (fun message text => message +:+ String "010" text) "" (log (run_state f)).

Definition set_run_state (st : State) (f : Frame) : Frame :=
  {| template_ctrl := template_ctrl f; excel_ctrl := excel_ctrl f;
     output_ctrl := output_ctrl f; generate_btn := generate_btn f;
     shown := shown f; run_state := st |}.

(** [self.log(message)]. *)
Definition frame_log (message : string) (f : Frame) : Frame :=
  set_run_state (logged true message (run_state f)) f.

(** [wx.MessageBox(message, caption, style)]. *)
Definition message_box (message caption : string) (style : Icon) (f : Frame) : Frame :=
  {| template_ctrl := template_ctrl f; excel_ctrl := excel_ctrl f;
     output_ctrl := output_ctrl f; generate_btn := generate_btn f;
     shown := shown f ++ [{| box_message := message; box_caption := caption;
                             box_style := style |}];
     run_state := run_state f |}.

(** [self.generate_btn.Enable()] and [.Disable()]. *)
Definition set_button (enabled : bool) (f : Frame) : Frame :=
  {| template_ctrl := template_ctrl f; excel_ctrl := excel_ctrl f;
     output_ctrl := output_ctrl f; generate_btn := enabled;
     shown := shown f; run_state := run_state f |}.

(** [str(total)] for a count. *)
Definition str_count (total : nat) : string := Py.str (Py.VInt (Z.of_nat total)).

Definition on_generate (w : World) (h : Host) (f : Frame) : Frame :=
  let template := Py.strip (template_ctrl f) in
  let excel := Py.strip (excel_ctrl f) in
  let output := Py.strip (output_ctrl f) in
  if negb (is_file h template) then
    message_box "Please select a valid .docx template file." "Validation"
      ICON_WARNING f
  else if negb (is_file h excel) then
    message_box "Please select a valid .xlsx file." "Validation" ICON_WARNING f
  else if negb (is_dir h output) then
    message_box "Please select a valid output folder." "Validation"
      ICON_WARNING f
  else
    let f := set_button false f in
    let f := frame_log "Starting generation..." f in
    let f :=
      match process_certificates w template excel true (run_state f) with
      | (Ok total, st') =>
          let f := set_run_state st' f in
          let f := frame_log ("Completed. Generated " +:+ str_count total
                              +:+ " certificates.") f in
          message_box ("Done. Generated " +:+ str_count total +:+ " certificates.")
            "Success" ICON_INFORMATION f
      | (Raise exc, st') =>
          let f := set_run_state st' f in
          let f := frame_log ("Error: " +:+ exc_text h exc) f in
          message_box (exc_text h exc) "Error" ICON_ERROR f
      end in
    set_button true f.

(** The three checks made before the batch starts. *)
Definition paths_valid (h : Host) (f : Frame) : bool :=
  is_file h (Py.strip (template_ctrl f))
  && is_file h (Py.strip (excel_ctrl f))
  && is_dir h (Py.strip (output_ctrl f)).

(** Sample form and host: every path exists. *)
Definition demo_host : Host :=
  {| is_file := fun p => negb (String.eqb p "");
     is_dir := fun p => negb (String.eqb p "");
     exc_text := fun _ => "failed" |}.

Definition demo_frame : Frame :=
  {| template_ctrl := " template.docx"; excel_ctrl := "names.xlsx ";
     output_ctrl := "out"; generate_btn := true; shown := [];
     run_state := empty_state |}.

(** ** The claims' own wording, for comparison with the code *)

(** The display text as the specification words it: the name is coerced to
    text (a missing name being empty) and stripped; a non-empty result is
    title-cased, an empty one becomes a single space. *)
Definition claimed_display_text (participant_name : Py.Value) : Py.Text :=
  let coerced :=
    match participant_name with
    | Py.VNone => ""
    | v => Py.str v
    end in
  let stripped := Py.strip coerced in
  if decide (stripped = "") then Py.wide " " else Py.title stripped.

(** The same with every falsy name counting as empty. *)
Definition amended_display_text (participant_name : Py.Value) : Py.Text :=
  let coerced :=
    if Py.truthy participant_name then Py.str participant_name else "" in
  let stripped := Py.strip coerced in
  if decide (stripped = "") then Py.wide " " else Py.title stripped.

(** * Properties *)

(** ** Text *)

Section Text.
Import Py.

Lemma append_nil (t : string) : "" +:+ t = t.
Proof. reflexivity. Qed.

Lemma append_cons (c : ascii) (s t : string) :
  String c s +:+ t = String c (s +:+ t).
Proof. reflexivity. Qed.

Lemma append_empty_r (s : string) : s +:+ "" = s.
Proof. induction s as [|c s IH]; [done | by rewrite append_cons, IH]. Qed.

Lemma append_assoc (s t u : string) : (s +:+ t) +:+ u = s +:+ t +:+ u.
Proof. induction s as [|c s IH]; [done | by rewrite !append_cons, IH]. Qed.

Lemma replace1_filter (c : ascii) (s : string) :
  String.list_ascii_of_string (replace1 c "" s)
  = List.filter (fun d => negb (Ascii.eqb d c)) (String.list_ascii_of_string s).
Proof.
  induction s as [|d s IH]; simpl; [done |].
  destruct (Ascii.eqb d c); simpl; [by rewrite append_nil | by rewrite IH].
Qed.

Lemma contains_replace1 (c : ascii) (s : string) :
  contains c (replace1 c "" s) = false.
Proof.
  induction s as [|d s IH]; simpl; [done |].
  destruct (Ascii.eqb d c) eqn:E; simpl; [by rewrite append_nil | by rewrite E].
Qed.

Lemma contains_lstrip (c : ascii) (s : string) :
  contains c s = false -> contains c (lstrip s) = false.
Proof.
  induction s as [|d s IH]; simpl; [done |].
  intros [Hd Hs]%orb_false_iff. destruct (isspace d); [by apply IH |].
  simpl. by rewrite Hd, Hs.
Qed.

Lemma contains_rstrip (c : ascii) (s : string) :
  contains c s = false -> contains c (rstrip s) = false.
Proof.
  induction s as [|d s IH]; simpl; [done |].
  intros [Hd Hs]%orb_false_iff. specialize (IH Hs).
  destruct (rstrip s) as [|e r].
  - destruct (isspace d); simpl; [done | by rewrite Hd].
  - simpl in *. by rewrite Hd, IH.
Qed.

Lemma lstrip_first (s : string) (c : ascii) :
  first_char (lstrip s) = Some c -> isspace c = false.
Proof.
  induction s as [|d s IH]; simpl; [done |].
  destruct (isspace d) eqn:E; [done |]. simpl. by intros [= <-].
Qed.

Lemma rstrip_first (s : string) (c : ascii) :
  first_char (rstrip s) = Some c -> first_char s = Some c.
Proof.
  destruct s as [|d s]; simpl; [done |].
  destruct (rstrip s); [destruct (isspace d) |]; done.
Qed.

Lemma rstrip_last (s : string) (c : ascii) :
  last_char (rstrip s) = Some c -> isspace c = false.
Proof.
  induction s as [|d s IH]; simpl; [done |].
  destruct (rstrip s) as [|e r].
  - destruct (isspace d) eqn:E; simpl; [done | by intros [= <-]].
  - done.
Qed.

Lemma lstrip_split (s : string) :
  exists l, s = l +:+ lstrip s /\ all_space l = true.
Proof.
  induction s as [|d s (l & Hl & Hsp)]; [by exists "" |].
  simpl. destruct (isspace d) eqn:E.
  - exists (String d l). rewrite append_cons, <- Hl. simpl. by rewrite E, Hsp.
  - by exists "".
Qed.

Lemma rstrip_split (s : string) :
  exists r, s = rstrip s +:+ r /\ all_space r = true.
Proof.
  induction s as [|d s (r & Hr & Hsp)]; [by exists "" |].
  simpl. destruct (rstrip s) as [|e t].
  - rewrite append_nil in Hr. subst r. destruct (isspace d) eqn:E.
    + exists (String d s). simpl. by rewrite E, Hsp.
    + by exists s.
  - exists r. by rewrite append_cons, <- Hr.
Qed.

Lemma strip_split (s : string) :
  exists l r, s = l +:+ strip s +:+ r
              /\ all_space l = true /\ all_space r = true.
Proof.
  destruct (lstrip_split s) as (l & Hl & Hlsp).
  destruct (rstrip_split (lstrip s)) as (r & Hr & Hrsp).
  exists l, r. unfold strip. by rewrite <- Hr, <- Hl.
Qed.

Lemma strip_first (s : string) (c : ascii) :
  first_char (strip s) = Some c -> isspace c = false.
Proof. intros H. by eapply lstrip_first, rstrip_first. Qed.

Lemma strip_last (s : string) (c : ascii) :
  last_char (strip s) = Some c -> isspace c = false.
Proof. apply rstrip_last. Qed.

Lemma contains_strip (c : ascii) (s : string) :
  contains c s = false -> contains c (strip s) = false.
Proof. intros H. by apply contains_rstrip, contains_lstrip. Qed.

(** On an ASCII character the title and lower forms are one character,
    a letter exactly when the character is one, in the expected case. *)
Lemma title_char_ascii (b : bool) (c : ascii) :
  (code c <? 128)%N = true ->
  exists n,
    (if b then tolower_full c else totitle_full c) = [n]
    /\ ascii_upper n || ascii_lower n = iscased c
    /\ (if iscased c then if b then ascii_lower n else ascii_upper n
        else true) = true.
Proof.
  destruct b; destruct c as [[] [] [] [] [] [] [] []]; intros H;
    vm_compute in H; try discriminate H; by eexists.
Qed.

Lemma title_from_titled (b : bool) (s : string) :
  ascii_only s = true -> titled_from b (title_from b s) = true.
Proof.
  revert b. induction s as [|c s IH]; intros b; [done |].
  cbn [ascii_only title_from]. intros [Hc Hs]%andb_true_iff.
  destruct (title_char_ascii b c Hc) as (n & -> & Hcased & Hform).
  cbn [app titled_from]. rewrite Hcased, (IH _ Hs), andb_true_r.
  destruct (iscased c); [by destruct b | done].
Qed.

Lemma title_char_nonempty (b : bool) (c : ascii) :
  (0 < length (if b then tolower_full c else totitle_full c))%nat.
Proof.
  destruct b; unfold tolower_full, totitle_full; cbn zeta;
    repeat case_match; cbn; lia.
Qed.

Lemma title_from_nonempty (b : bool) (s : string) :
  s <> "" -> (0 < length (title_from b s))%nat.
Proof.
  destruct s as [|c s]; [done |]. intros _. cbn [title_from].
  rewrite length_app. pose proof (title_char_nonempty b c). lia.
Qed.

Lemma ascii_only_lstrip (s : string) :
  ascii_only s = true -> ascii_only (lstrip s) = true.
Proof.
  induction s as [|c s IH]; [done |]. cbn [ascii_only lstrip].
  intros [Hc Hs]%andb_true_iff. destruct (isspace c); [by apply IH |].
  cbn [ascii_only]. by rewrite Hc, Hs.
Qed.

Lemma ascii_only_rstrip (s : string) :
  ascii_only s = true -> ascii_only (rstrip s) = true.
Proof.
  induction s as [|c s IH]; [done |]. cbn [ascii_only rstrip].
  intros [Hc Hs]%andb_true_iff. specialize (IH Hs).
  destruct (rstrip s) as [|d r].
  - destruct (isspace c); [done |]. cbn [ascii_only]. by rewrite Hc.
  - cbn [ascii_only] in *. by rewrite Hc, IH.
Qed.

Lemma ascii_only_strip (s : string) :
  ascii_only s = true -> ascii_only (strip s) = true.
Proof. intros H. by apply ascii_only_rstrip, ascii_only_lstrip. Qed.

Lemma eqb_empty (s : string) : String.eqb s "" = bool_decide (s = "").
Proof. by destruct s. Qed.

Lemma all_space_strip (s : string) : all_space s = true -> strip s = "".
Proof.
  unfold strip. induction s as [|c s IH]; simpl; [done |].
  intros [Hc Hs]%andb_true_iff. rewrite Hc. by apply IH.
Qed.

End Text.

(** ** The identifier sanitizer *)

Section Sanitizer.
Import Py.

Lemma strip_no_edge_space (s : string) :
  starts_with_space (strip s) = false /\ ends_with_space (strip s) = false.
Proof.
  unfold starts_with_space, ends_with_space. split.
  - destruct (first_char (strip s)) as [c|] eqn:E; [by eapply strip_first | done].
  - destruct (last_char (strip s)) as [c|] eqn:E; [by eapply strip_last | done].
Qed.

(** C2, as the claim has it, fails: a falsy identifier need not sanitize to
    the empty text.  [None] is falsy and sanitizes to the text "None". *)
Lemma sanitize_falsy_not_empty :
  truthy VNone = false /\ sanitize_certificate_id VNone = "None"
  /\ sanitize_certificate_id VNone <> "".
Proof. by repeat split. Qed.

(** C2 (amended): for every identifier value the sanitizer is defined, and
    its result is the text of the value with every '+' removed and the
    whitespace at both ends trimmed: it is what is left of that text
    between two runs of whitespace, it holds no '+', and it neither starts
    nor ends with whitespace.  The empty text yields the empty text, and
    "A+1 " yields "A1"; the falsy values that are not text yield their
    textual form ("None", "0", "False"), not the empty text. *)
Theorem sanitize_contract (certificate_id : Value) :
  let text := str certificate_id in
  let clean_id := sanitize_certificate_id certificate_id in
  String.list_ascii_of_string (replace1 "+" "" text)
    = List.filter (fun c => negb (Ascii.eqb c "+"))
                  (String.list_ascii_of_string text)
  /\ (exists l r, replace1 "+" "" text = l +:+ clean_id +:+ r
                  /\ all_space l = true /\ all_space r = true)
  /\ contains "+" clean_id = false
  /\ starts_with_space clean_id = false
  /\ ends_with_space clean_id = false
  /\ sanitize_certificate_id (VStr "") = ""
  /\ sanitize_certificate_id (VStr "A+1 ") = "A1"
  /\ sanitize_certificate_id VNone = "None"
  /\ sanitize_certificate_id (VInt 0) = "0"
  /\ sanitize_certificate_id (VBool false) = "False".
Proof.
  intros text clean_id. subst clean_id. unfold sanitize_certificate_id.
  fold text. split; [apply replace1_filter |].
  split; [apply strip_split |].
  split; [apply contains_strip, contains_replace1 |].
  split; [apply strip_no_edge_space |].
  split; [apply strip_no_edge_space |].
  by repeat split.
Qed.

End Sanitizer.

(** ** The display text *)

Section DisplayText.
Import Py.

Lemma display_text_amended (name : Value) :
  display_text name = amended_display_text name.
Proof.
  unfold display_text, amended_display_text, or_else.
  assert (E : str (if truthy name then name else VStr "")
              = if truthy name then str name else "") by by destruct (truthy name).
  rewrite E. simpl. rewrite eqb_empty.
  by case_bool_decide; case_decide.
Qed.

(** C5, as the claim has it, fails: the number zero in the name cell,
    coerced to text, is "0", which title-cases to itself; the code writes
    a single space. *)
Lemma display_text_zero_not_claimed :
  claimed_display_text (VInt 0) = wide "0" /\ display_text (VInt 0) = wide " "
  /\ display_text (VInt 0) <> claimed_display_text (VInt 0).
Proof. by repeat split. Qed.

(** C5 (amended): the display text is computed from the name coerced to
    text, any falsy name (missing, empty, the number zero, False) counting
    as empty, and stripped: a non-empty result is title-cased, an empty one
    becomes a single space.  It differs from the claim's wording on the
    number zero and on False only.  The text written is never empty; for
    a name of ASCII characters it is in title form, the first letter of
    each run of letters in upper case; "jane doe" gives "Jane Doe", and a
    missing, empty or whitespace-only name gives a single space.  Beyond
    ASCII, U+00E9 "mile" gives U+00C9 "mile" and U+00DF "a" gives "Ssa". *)
Theorem display_text_contract (participant_name : Value) :
  display_text participant_name = amended_display_text participant_name
  /\ display_text participant_name
     = match participant_name with
       | VInt 0 | VBool false => wide " "
       | _ => claimed_display_text participant_name
       end
  /\ (0 < length (display_text participant_name))%nat
  /\ (if ascii_only (str participant_name)
      then titled_from false (display_text participant_name) else true) = true
  /\ display_text (VStr "jane doe") = wide "Jane Doe"
  /\ display_text (VStr (String "233" "mile")) = 201%N :: wide "mile"
  /\ display_text (VStr (String "223" "a")) = wide "Ssa"
  /\ display_text VNone = wide " "
  /\ display_text (VStr "") = wide " "
  /\ display_text (VStr "  ") = wide " ".
Proof.
  split; [apply display_text_amended |].
  split.
  { rewrite display_text_amended.
    destruct participant_name as [|s|[| |]|[]]; try done.
    unfold amended_display_text, claimed_display_text. simpl.
    destruct s; done. }
  rewrite display_text_amended. unfold amended_display_text.
  split.
  { cbn zeta. case_decide as E; [cbn; lia |]. by apply title_from_nonempty. }
  split.
  { destruct (ascii_only (str participant_name)) eqn:Hascii; [|done].
    cbn zeta. case_decide; [done |]. apply title_from_titled.
    apply ascii_only_strip. by destruct (truthy participant_name). }
  by repeat split.
Qed.

End DisplayText.

(** ** The monad and the rendering of one certificate *)

Section Rendering.
Context (w : World) (template_path : string).

Lemma fill_template_pure (name : Py.Value) (st : State) :
  fill_template w template_path name st
  = (load_and_fill w template_path name, st).
Proof.
  unfold fill_template, load_and_fill, fill, bind, subscript, ret, raise.
  destruct (open_document w template_path) as [doc|]; [|done].
  destruct (paragraphs doc !! NAME_PARAGRAPH_INDEX) as [par|]; [|done].
  by destruct (runs par !! NAME_RUN_INDEX).
Qed.

(** The three ways a rendering ends. *)
Lemma generate_pdf_spec (certificate_id name : Py.Value) (st : State) :
  generate_pdf w template_path certificate_id name st
  = let clean_id := sanitize_certificate_id certificate_id in
    match load_and_fill w template_path name with
    | Raise e => (Raise e, st)
    | Ok doc =>
        if save_ok w (clean_id +:+ ".docx") doc then
          if convert_ok w (clean_id +:+ ".pdf") doc
          then (Ok tt, rendered w clean_id doc st)
          else (Raise ConvertError, saved w clean_id doc st)
        else (Raise SaveError, st)
    end.
Proof.
  unfold generate_pdf, bind at 1. rewrite fill_template_pure. simpl.
  destruct (load_and_fill w template_path name) as [doc|e]; [|done].
  unfold save at 1. unfold bind at 1.
  destruct (save_ok w _ doc); [|done].
  cbv [bind convert unlink get_files modify raise files log converted].
  rewrite lookup_insert_eq.
  by destruct (convert_ok w _ doc).
Qed.

End Rendering.

(** ** The batch loop *)

Section Loop.
Context (w : World) (template_path : string) (log_callback : bool).

Lemma bind_ok {A B} (m : M A) (k : A -> M B) (st st' : State) (a : A) :
  m st = (Ok a, st') -> bind m k st = k a st'.
Proof. unfold bind. by intros ->. Qed.

Lemma bind_raise {A B} (m : M A) (k : A -> M B) (st st' : State) (e : Error) :
  m st = (Raise e, st') -> bind m k st = (Raise e, st').
Proof. unfold bind. by intros ->. Qed.

Lemma call_log_logged (message : string) (st : State) :
  call_log log_callback message st = (Ok tt, logged log_callback message st).
Proof. unfold call_log, logged. by destruct log_callback. Qed.

(** Past the header the loop is the loop over data rows. *)
Lemma rows_loop_data_rows (rows : list Row) (i count : nat) (st : State) :
  rows_loop w template_path log_callback (S i) rows count st
  = data_rows w template_path log_callback rows count st.
Proof.
  revert i count st. induction rows as [|row rest IH]; intros i count st; [done |].
  cbn [rows_loop data_rows Nat.eqb HEADER_ROW_INDEX]. unfold row_body.
  unfold bind, ret.
  destruct (subscript row ID_COLUMN_INDEX st) as [[id|e] st1]; [|done].
  destruct (negb (Py.truthy id)); [apply IH |].
  destruct (subscript row NAME_COLUMN_INDEX st1) as [[name|e] st2]; [|done].
  destruct (call_log _ _ st2) as [[[]|e] st3]; [|done].
  destruct (generate_pdf _ _ _ _ st3) as [[[]|e] st4]; [|done].
  apply IH.
Qed.

Lemma data_rows_app (pre post : list Row) (count : nat) (st : State) :
  data_rows w template_path log_callback (pre ++ post) count st
  = bind (data_rows w template_path log_callback pre count)
         (data_rows w template_path log_callback post) st.
Proof.
  revert count st. induction pre as [|row pre IH]; intros count st; [done |].
  cbn [app data_rows]. unfold bind.
  destruct (row_body _ _ _ row count st) as [[count'|e] st']; [|done].
  rewrite IH. done.
Qed.

Lemma row_body_falsy (row : Row) (certificate_id : Py.Value) (count : nat) (st : State) :
  row !! ID_COLUMN_INDEX = Some certificate_id ->
  Py.truthy certificate_id = false ->
  row_body w template_path log_callback row count st = (Ok count, st).
Proof.
  intros Hid Hf. unfold row_body, bind, subscript. rewrite Hid. simpl.
  by rewrite Hf.
Qed.

Lemma row_body_renderable (certificate_id name : Py.Value) (rest : Row)
    (count : nat) (st : State) :
  Py.truthy certificate_id = true ->
  row_body w template_path log_callback (certificate_id :: name :: rest) count st
  = match generate_pdf w template_path certificate_id name
            (logged log_callback (progress_message certificate_id name) st) with
    | (Ok _, st') => (Ok (count + 1)%nat, st')
    | (Raise e, st') => (Raise e, st')
    end.
Proof.
  intros Ht. unfold row_body, bind, subscript. simpl. rewrite Ht. simpl.
  rewrite call_log_logged.
  by destruct (generate_pdf _ _ _ _ _) as [[[]|e] st'].
Qed.

Lemma row_body_short (certificate_id : Py.Value) (count : nat) (st : State) :
  Py.truthy certificate_id = true ->
  row_body w template_path log_callback [certificate_id] count st
  = (Raise IndexError, st).
Proof. intros Ht. unfold row_body, bind, subscript. simpl. by rewrite Ht. Qed.

End Loop.

Lemma data_rows_set_workbook (w : World) (sheet : list Row) (template_path : string)
    (log_callback : bool) (rows : list Row) (count : nat) (st : State) :
  data_rows (set_workbook w sheet) template_path log_callback rows count st
  = data_rows w template_path log_callback rows count st.
Proof.
  revert count st. induction rows as [|row rest IH]; intros count st; [done |].
  cbn [data_rows]. unfold bind.
  change (row_body (set_workbook w sheet) template_path log_callback row count st)
    with (row_body w template_path log_callback row count st).
  destruct (row_body w _ _ row count st) as [[count'|e] st']; [apply IH | done].
Qed.

(** The whole run on a sheet with a first row is the loop over the rows
    after it. *)
Lemma process_data_rows (w : World) (template_path excel_path : string)
    (log_callback : bool) (header : Row) (rows : list Row) (st : State) :
  process_certificates (set_workbook w (header :: rows)) template_path excel_path
    log_callback st
  = data_rows w template_path log_callback rows 0 st.
Proof.
  unfold process_certificates. cbn [open_workbook set_workbook].
  cbn [rows_loop Nat.eqb HEADER_ROW_INDEX].
  by rewrite rows_loop_data_rows, data_rows_set_workbook.
Qed.

(** ** Rows that are skipped *)

(** C3: the first row of the sheet is skipped whatever it holds: the run
    on a sheet is the loop over the rows after the first, so two sheets
    that differ in their first row only give the same count, the same
    files and the same progress messages; a sheet with a header row only
    gives count 0 and leaves the state (files, messages, conversions) as
    it was. *)
Theorem header_row_skipped (w : World) (template_path excel_path : string)
    (log_callback : bool) (header header' : Row) (rows : list Row) (st : State) :
  process_certificates (set_workbook w (header :: rows)) template_path excel_path
    log_callback st
  = data_rows w template_path log_callback rows 0 st
  /\ process_certificates (set_workbook w (header :: rows)) template_path
       excel_path log_callback st
     = process_certificates (set_workbook w (header' :: rows)) template_path
         excel_path log_callback st
  /\ process_certificates (set_workbook w [header]) template_path excel_path
       log_callback st
     = (Ok 0%nat, st).
Proof.
  rewrite !process_data_rows. by repeat split.
Qed.

(** C4: a row after the header whose identifier cell is falsy (empty text,
    missing, the number zero, False) is skipped silently: the run with the
    row is the run without it, in result (count or error), files, progress
    messages and conversions, whatever the rest of the row holds. *)
Theorem falsy_identifier_row_skipped (w : World) (template_path excel_path : string)
    (log_callback : bool) (header : Row) (pre post : list Row) (row : Row)
    (certificate_id : Py.Value) (st : State) :
  row !! ID_COLUMN_INDEX = Some certificate_id ->
  Py.truthy certificate_id = false ->
  process_certificates (set_workbook w (header :: pre ++ row :: post))
    template_path excel_path log_callback st
  = process_certificates (set_workbook w (header :: pre ++ post))
      template_path excel_path log_callback st.
Proof.
  intros Hid Hf. rewrite !process_data_rows, !data_rows_app.
  unfold bind.
  destruct (data_rows w _ _ pre 0%nat st) as [[count|e] st']; [|done].
  cbn [data_rows].
  by rewrite (bind_ok _ _ _ _ _ (row_body_falsy w _ _ row _ count st' Hid Hf)).
Qed.



(** ** File names *)

Section FileNames.

Lemma append_inj_l (s a b : string) : s +:+ a = s +:+ b -> a = b.
Proof.
  induction s as [|c s IH]; [done |].
  rewrite !append_cons. intros [= H]. by apply IH.
Qed.

Lemma last_char_append (s t : string) :
  t <> "" -> Py.last_char (s +:+ t) = Py.last_char t.
Proof.
  intros Ht. induction s as [|c s IH]; [done |].
  rewrite append_cons. cbn [Py.last_char]. rewrite IH.
  destruct (s +:+ t) eqn:E; [|done].
  destruct s, t; done.
Qed.

Lemma pdf_not_docx (s t : string) : s +:+ ".pdf" <> t +:+ ".docx".
Proof.
  intros H. apply (f_equal Py.last_char) in H.
  rewrite !last_char_append in H; done.
Qed.

Lemma apart_same_name (w : World) :
  (forall name, resolve w name = name) -> apart w.
Proof. intros Hid s t. rewrite !Hid. apply pdf_not_docx. Qed.

Lemma apart_demo_world : apart demo_world.
Proof. by apply apart_same_name. Qed.

Lemma apart_failing_world : apart failing_world.
Proof. by apply apart_same_name. Qed.

Lemma last_char_drop_dot (s ext : string) :
  ext = ".pdf" \/ ext = ".docx" ->
  Py.last_char (drop_dot (s +:+ ext)) = Py.last_char ext.
Proof.
  intros Hext.
  assert (Hne : ext <> "") by by destruct Hext as [-> | ->].
  destruct s as [|a [|b s]].
  - by destruct Hext as [-> | ->].
  - destruct Hext as [-> | ->];
      by destruct a as [[] [] [] [] [] [] [] []].
  - rewrite !append_cons. unfold drop_dot.
    repeat case_match; simplify_eq;
      rewrite <- ?append_cons; by rewrite last_char_append.
Qed.

Lemma apart_dotted_world : apart dotted_world.
Proof.
  intros s t H. apply (f_equal Py.last_char) in H. cbn [resolve dotted_world] in H.
  rewrite !last_char_drop_dot in H by auto. done.
Qed.

(** What a file holds after a rendering. *)
Lemma rendered_lookup (w : World) (clean_id : string) (doc : Document)
    (st : State) (file : string) :
  files (rendered w clean_id doc st) !! file
  = if decide (file = resolve w (clean_id +:+ ".docx")) then None
    else if decide (file = resolve w (clean_id +:+ ".pdf")) then Some (Pdf doc)
         else files st !! file.
Proof.
  cbn [rendered files]. case_decide as Hd; [subst; apply lookup_delete_eq |].
  rewrite lookup_delete_ne by done.
  case_decide as Hp; [subst; apply lookup_insert_eq |].
  by rewrite !lookup_insert_ne.
Qed.

Lemma rendered_files (w : World) (clean_id : string) (doc : Document)
    (st : State) :
  apart w ->
  files (rendered w clean_id doc st)
  = <[resolve w (clean_id +:+ ".pdf") := Pdf doc]>
      (delete (resolve w (clean_id +:+ ".docx")) (files st)).
Proof.
  intros Hw. cbn [rendered files].
  rewrite delete_insert_ne by (symmetry; apply Hw).
  by rewrite delete_insert_eq.
Qed.

Lemma rendered_dom (w : World) (clean_id : string) (doc : Document)
    (st : State) :
  apart w ->
  dom (files (rendered w clean_id doc st))
  = {[resolve w (clean_id +:+ ".pdf")]}
    ∪ (dom (files st) ∖ {[resolve w (clean_id +:+ ".docx")]}).
Proof. intros Hw. by rewrite rendered_files, dom_insert_L, dom_delete_L. Qed.

Lemma logged_files (log_callback : bool) (message : string) (st : State) :
  files (logged log_callback message st) = files st.
Proof. by destruct log_callback. Qed.

Lemma logged_converted (log_callback : bool) (message : string) (st : State) :
  converted (logged log_callback message st) = converted st.
Proof. by destruct log_callback. Qed.

Lemma names_start (D : gset string) : D = ∅ ∪ (D ∖ ∅).
Proof. set_solver. Qed.

Lemma names_fresh (P X : gset string) : P ∪ (∅ ∖ X) = P.
Proof. set_solver. Qed.

Lemma names_step (p x : string) (P X D : gset string) :
  p ∉ X -> P ∪ (({[p]} ∪ (D ∖ {[x]})) ∖ X) = ({[p]} ∪ P) ∪ (D ∖ ({[x]} ∪ X)).
Proof. set_solver. Qed.

Lemma generate_pdf_ok_inv (w : World) (template_path : string)
    (certificate_id name : Py.Value) (st st' : State) (u : unit) :
  generate_pdf w template_path certificate_id name st = (Ok u, st') ->
  exists doc, load_and_fill w template_path name = Ok doc
              /\ st' = rendered w (sanitize_certificate_id certificate_id) doc st.
Proof.
  rewrite generate_pdf_spec. cbn zeta.
  destruct (load_and_fill w template_path name) as [doc|e]; [|done].
  destruct (save_ok w _ doc); [|done].
  destruct (convert_ok w _ doc); [|done].
  intros [= <-]. by exists doc.
Qed.

End FileNames.

(** ** One certificate *)

(** C8: the display text is appended to the first run of the first
    paragraph of the template as loaded: that run keeps the text it had,
    followed by the display text, and takes the fixed font; every other run
    and every other paragraph is as in the template.  The document so
    filled is the one saved and rendered. *)
Theorem placeholder_run_appended (w : World) (template_path : string)
    (certificate_id participant_name : Py.Value) (st : State)
    (doc : Document) (run : Run) (other_runs : list Run)
    (other_paragraphs : list Paragraph) :
  open_document w template_path = Some doc ->
  paragraphs doc = {| runs := run :: other_runs |} :: other_paragraphs ->
  let filled :=
    {| paragraphs :=
         {| runs :=
              {| run_text := run_text run ++ display_text participant_name;
                 run_font := {| font_name := Some "Calibri";
                                font_size := Some 203200 |} |}
              :: other_runs |}
         :: other_paragraphs |} in
  fill_template w template_path participant_name st = (Ok filled, st)
  /\ generate_pdf w template_path certificate_id participant_name st
     = let clean_id := sanitize_certificate_id certificate_id in
       if save_ok w (clean_id +:+ ".docx") filled then
         if convert_ok w (clean_id +:+ ".pdf") filled
         then (Ok tt, rendered w clean_id filled st)
         else (Raise ConvertError, saved w clean_id filled st)
       else (Raise SaveError, st).
Proof.
  intros Hopen Hpars filled.
  assert (Hfill : load_and_fill w template_path participant_name = Ok filled).
  { unfold load_and_fill, fill, put_run. rewrite Hopen, !Hpars. reflexivity. }
  split.
  - by rewrite fill_template_pure, Hfill.
  - by rewrite generate_pdf_spec, Hfill.
Qed.

(** C6: a rendering that succeeds produces exactly one artifact, named
    from the sanitized identifier alone: the converter writes the one file
    [<stem>.pdf], the directory afterwards holds that file, and what it
    held before except [<stem>.docx]; two renderings from the same state
    that differ in the participant name only write the same name and
    leave the same set of files.  The identifier "ID+001" has stem
    "ID001". *)
Theorem output_name_from_identifier (w : World) (template_path : string)
    (certificate_id name1 name2 : Py.Value) (st st1 st2 : State) :
  apart w ->
  generate_pdf w template_path certificate_id name1 st = (Ok tt, st1) ->
  generate_pdf w template_path certificate_id name2 st = (Ok tt, st2) ->
  let clean_id := sanitize_certificate_id certificate_id in
  converted st1 = converted st ++ [clean_id +:+ ".pdf"]
  /\ dom (files st1)
     = {[resolve w (clean_id +:+ ".pdf")]}
       ∪ (dom (files st) ∖ {[resolve w (clean_id +:+ ".docx")]})
  /\ converted st2 = converted st1
  /\ dom (files st2) = dom (files st1)
  /\ sanitize_certificate_id (Py.VStr "ID+001") = "ID001".
Proof.
  intros Hw (d1 & _ & ->)%generate_pdf_ok_inv (d2 & _ & ->)%generate_pdf_ok_inv.
  intros clean_id. rewrite !rendered_dom by done. by repeat split.
Qed.

(** ** Counting *)

Section Counting.
Context (w : World) (template_path : string) (log_callback : bool).
Hypothesis names_apart : apart w.

Lemma renders_inv (row : Row) :
  renders w template_path row = true ->
  exists certificate_id name cells filled,
    row = certificate_id :: name :: cells
    /\ Py.truthy certificate_id = true
    /\ forall st,
         generate_pdf w template_path certificate_id name st
         = (Ok tt, rendered w (sanitize_certificate_id certificate_id) filled st).
Proof using Type.
  destruct row as [|certificate_id [|name cells]]; [done.. |].
  cbn [renders]. intros [Ht Hrest]%andb_true_iff.
  destruct (load_and_fill w template_path name) as [filled|e] eqn:Hf; [|done].
  apply andb_true_iff in Hrest as [Hs Hc].
  exists certificate_id, name, cells, filled. split; [done |]. split; [done |].
  intros st. rewrite generate_pdf_spec. cbn zeta. by rewrite Hf, Hs, Hc.
Qed.

Lemma data_rows_renders (rows : list Row) (count : nat) (st : State) :
  forallb (renders w template_path) rows = true ->
  exists st',
    data_rows w template_path log_callback rows count st
    = (Ok (count + length rows)%nat, st')
    /\ converted st' = converted st ++ map pdf_file rows
    /\ dom (files st')
       = list_to_set (map (pdf_at w) rows)
         ∪ (dom (files st) ∖ list_to_set (map (docx_at w) rows)).
Proof using names_apart.
  revert count st. induction rows as [|row rows IH]; intros count st Hrows.
  { exists st. cbn. rewrite Nat.add_0_r, app_nil_r. split; [done |].
    split; [done | apply names_start]. }
  cbn [forallb] in Hrows. apply andb_true_iff in Hrows as [Hrow Hrows].
  destruct (renders_inv row Hrow)
    as (certificate_id & name & cells & filled & -> & Ht & Hgen).
  cbn [data_rows]. unfold bind.
  rewrite row_body_renderable, Hgen by done.
  destruct (IH (count + 1)%nat
              (rendered w (sanitize_certificate_id certificate_id) filled
                 (logged log_callback (progress_message certificate_id name) st))
              Hrows) as (st' & -> & Hconv & Hdom).
  exists st'. split; [f_equal; f_equal; cbn; lia |].
  split.
  - rewrite Hconv. cbn [rendered converted map].
    by rewrite logged_converted, <- app_assoc.
  - rewrite Hdom, rendered_dom, logged_files by done. cbn [map].
    rewrite !list_to_set_cons.
    assert (pdf_at w (certificate_id :: name :: cells)
            ∉ (list_to_set (map (docx_at w) rows) : gset string)).
    { rewrite elem_of_list_to_set, list_elem_of_fmap.
      intros (r & H & _). by apply names_apart in H. }
    by apply names_step.
Qed.

End Counting.

Section Distinct.

Lemma size_list_to_set_le (l : list string) :
  (size (list_to_set l : gset string) <= length l)%nat.
Proof.
  induction l as [|x l IH]; [done |].
  rewrite list_to_set_cons, size_union_alt, size_singleton. cbn [length].
  assert (size ((list_to_set l : gset string) ∖ {[x]}) <= size (list_to_set l : gset string))%nat
    by (apply subseteq_size; set_solver).
  lia.
Qed.

Lemma size_list_to_set_dup (l : list string) :
  ~ NoDup l -> (size (list_to_set l : gset string) < length l)%nat.
Proof.
  induction l as [|x l IH]; intros Hdup.
  { destruct Hdup. constructor. }
  rewrite list_to_set_cons. cbn [length].
  destruct (decide (x ∈ l)) as [Hin|Hnin].
  - replace ({[x]} ∪ list_to_set l : gset string) with (list_to_set l : gset string)
      by set_solver.
    pose proof (size_list_to_set_le l). lia.
  - assert (~ NoDup l) as Hl by (intros Hl; apply Hdup; by constructor).
    rewrite size_union, size_singleton by set_solver.
    specialize (IH Hl). lia.
Qed.

Lemma append_length (s t : string) :
  String.length (s +:+ t) = (String.length s + String.length t)%nat.
Proof.
  induction s as [|c s IH]; [done |].
  rewrite append_cons. cbn [String.length]. by rewrite IH.
Qed.

Lemma append_inj_r (s t u : string) : s +:+ u = t +:+ u -> s = t.
Proof.
  revert t. induction s as [|c s IH]; intros [|d t]; rewrite ?append_cons, ?append_nil.
  - done.
  - intros H. apply (f_equal String.length) in H.
    cbn [String.length] in H. rewrite append_length in H. lia.
  - intros H. apply (f_equal String.length) in H.
    cbn [String.length] in H. rewrite append_length in H. lia.
  - intros [= -> H]. f_equal. by apply IH.
Qed.

Lemma NoDup_pdf_files (rows : list Row) :
  NoDup (map pdf_file rows) <-> NoDup (map row_stem rows).
Proof.
  change (NoDup ((fun s => s +:+ ".pdf") ∘ row_stem <$> rows)
          <-> NoDup (row_stem <$> rows)).
  rewrite list_fmap_compose.
  split; [apply NoDup_fmap_1 |].
  apply NoDup_fmap_2. intros s t. apply append_inj_r.
Qed.

End Distinct.

(** C1, as the claim has it, fails: two rows with the same identifier are
    both rendered and counted, and leave one file.  On [twin_sheet], from
    an empty directory and with every service succeeding, the run returns
    2 and the directory holds the single file [A.pdf]. *)
Lemma twin_rows_one_file :
  forallb (fun row => match row with
                      | certificate_id :: _ => Py.truthy certificate_id
                      | [] => false
                      end) (tail twin_sheet) = true
  /\ fst (process_certificates (set_workbook demo_world twin_sheet)
            "template.docx" "names.xlsx" true empty_state) = Ok 2%nat
  /\ dom (files (snd (process_certificates (set_workbook demo_world twin_sheet)
                        "template.docx" "names.xlsx" true empty_state)))
     = {["A.pdf"]}
  /\ size (files (snd (process_certificates (set_workbook demo_world twin_sheet)
                         "template.docx" "names.xlsx" true empty_state)))
     <> 2%nat.
Proof.
  split; [done |]. split; [by vm_compute |].
  assert (E : dom (files (snd (process_certificates
                (set_workbook demo_world twin_sheet)
                "template.docx" "names.xlsx" true empty_state)))
              = {["A.pdf"]}).
  { destruct (data_rows_renders demo_world "template.docx" true
                apart_demo_world (tail twin_sheet) 0%nat empty_state eq_refl)
      as (st' & Hrun & _ & Hdom).
    unfold twin_sheet. rewrite process_data_rows. cbn [tail twin_sheet] in Hrun.
    rewrite Hrun. cbn [snd]. rewrite Hdom. cbn. set_solver. }
  split; [done |].
  rewrite <- size_dom, E, size_singleton. done.
Qed.

(** C1 (amended): when every row after the header has at least two cells
    and a truthy identifier, and is rendered without failure (the template
    loads and has its placeholder run, the row's document is saved and
    converted), the run returns the number N of those rows and converts N
    documents, one per row and in row order, each under the name made of
    the row's sanitized identifier.  The directory then holds the files
    these names denote, besides what it held before less the [.docx]
    files of the rows.  They are N files when the rows' [.pdf] names
    denote pairwise distinct files, and fewer than N otherwise. *)
Theorem count_of_rendered_rows (w : World) (template_path excel_path : string)
    (log_callback : bool) (header : Row) (rows : list Row) (st : State) :
  apart w ->
  forallb (renders w template_path) rows = true ->
  exists st',
    process_certificates (set_workbook w (header :: rows)) template_path
      excel_path log_callback st = (Ok (length rows), st')
    /\ converted st' = converted st ++ map pdf_file rows
    /\ dom (files st')
       = list_to_set (map (pdf_at w) rows)
         ∪ (dom (files st) ∖ list_to_set (map (docx_at w) rows))
    /\ if decide (NoDup (map (pdf_at w) rows))
       then size (list_to_set (map (pdf_at w) rows) : gset string) = length rows
       else (size (list_to_set (map (pdf_at w) rows) : gset string)
             < length rows)%nat.
Proof.
  intros Hw Hrows.
  destruct (data_rows_renders w template_path log_callback Hw rows 0%nat st Hrows)
    as (st' & Hrun & Hc & Hdom).
  exists st'. rewrite process_data_rows. split; [done |].
  split; [done |]. split; [done |].
  case_decide as Hnd.
  - by rewrite size_list_to_set, length_map.
  - rewrite <- (length_map (pdf_at w) rows). by apply size_list_to_set_dup.
Qed.

(** On a host that drops a leading [./], the identifiers [A] and [./A]
    differ, and so do their sanitized forms, while their files are one:
    both rows are counted and one file is left. *)
Lemma dotted_rows_one_file :
  NoDup (map row_stem (tail dotted_sheet))
  /\ fst (process_certificates (set_workbook dotted_world dotted_sheet)
            "template.docx" "names.xlsx" true empty_state) = Ok 2%nat
  /\ dom (files (snd (process_certificates (set_workbook dotted_world dotted_sheet)
                        "template.docx" "names.xlsx" true empty_state)))
     = {["A.pdf"]}.
Proof.
  split.
  { refine (bool_decide_unpack _ _). vm_compute. exact I. }
  split; [by vm_compute |].
  destruct (data_rows_renders dotted_world "template.docx" true
              apart_dotted_world (tail dotted_sheet) 0%nat empty_state eq_refl)
    as (st' & Hrun & _ & Hdom).
  unfold dotted_sheet. rewrite process_data_rows. cbn [tail dotted_sheet] in Hrun.
  rewrite Hrun. cbn [snd]. rewrite Hdom. cbn. set_solver.
Qed.

(** ** Failures *)

Lemma generate_pdf_raise_inv (w : World) (template_path : string)
    (certificate_id name : Py.Value) (st st' : State) (e : Error) :
  generate_pdf w template_path certificate_id name st = (Raise e, st') ->
  st' = st
  \/ exists filled, e = ConvertError
       /\ st' = saved w (sanitize_certificate_id certificate_id) filled st.
Proof.
  rewrite generate_pdf_spec. cbn zeta.
  destruct (load_and_fill w template_path name) as [filled|e']; [|intros [= <- <-]; by left].
  destruct (save_ok w _ filled); [|intros [= <- <-]; by left].
  destruct (convert_ok w _ filled); [done |].
  intros [= <- <-]. right. by exists filled.
Qed.

(** A template without paragraphs, or whose first paragraph has no run,
    makes the rendering raise [IndexError] and write nothing. *)
Lemma generate_pdf_malformed (w : World) (template_path : string)
    (certificate_id name : Py.Value) (st : State) (doc : Document) :
  open_document w template_path = Some doc ->
  has_placeholder doc = false ->
  generate_pdf w template_path certificate_id name st = (Raise IndexError, st).
Proof.
  intros Hopen Hdoc. rewrite generate_pdf_spec. cbn zeta.
  unfold load_and_fill, fill. rewrite Hopen. unfold has_placeholder in Hdoc.
  by destruct (paragraphs doc) as [|[[|run other_runs]] pars].
Qed.

(** C7: a failure is not caught and ends the run.  An unreadable
    spreadsheet raises before any row.  When the rows before some row were
    processed and the rendering of that row fails, whatever the failure
    (template that cannot be loaded or lacks its first paragraph or run,
    document that cannot be saved, converter failure), the run ends with
    that very error in the state the failed rendering left: the rows after
    it are not looked at, the conversions done and the rendered files
    written before are all in place, and nothing is retried. *)
Theorem failure_aborts_run (w : World) (template_path excel_path : string)
    (log_callback : bool) (header : Row) (pre post : list Row)
    (certificate_id name : Py.Value) (cells : Row)
    (st st0 st2 : State) (count : nat) (e : Error) :
  apart w ->
  process_certificates (set_workbook w (header :: pre)) template_path excel_path
    log_callback st = (Ok count, st0) ->
  Py.truthy certificate_id = true ->
  generate_pdf w template_path certificate_id name
    (logged log_callback (progress_message certificate_id name) st0)
  = (Raise e, st2) ->
  process_certificates
    (set_workbook w (header :: pre ++ (certificate_id :: name :: cells) :: post))
    template_path excel_path log_callback st
  = (Raise e, st2)
  /\ converted st2 = converted st0
  /\ (forall stem, files st2 !! resolve w (stem +:+ ".pdf")
                   = files st0 !! resolve w (stem +:+ ".pdf"))
  /\ process_certificates
       {| open_document := open_document w; open_workbook := fun _ => None;
          save_ok := save_ok w; convert_ok := convert_ok w;
          resolve := resolve w |}
       template_path excel_path log_callback st
     = (Raise WorkbookError, st).
Proof.
  intros Hw Hpre Ht Hgen. rewrite process_data_rows in Hpre.
  split.
  { rewrite process_data_rows, data_rows_app.
    rewrite (bind_ok _ _ _ _ _ Hpre). cbn [data_rows].
    apply bind_raise. by rewrite row_body_renderable, Hgen. }
  apply generate_pdf_raise_inv in Hgen as [-> | (filled & _ & ->)].
  - rewrite logged_converted. split; [done |]. split; [|done].
    intros stem. by rewrite logged_files.
  - cbn [saved converted files]. rewrite logged_converted, logged_files.
    split; [done |]. split; [|done].
    intros stem. rewrite lookup_insert_ne; [done |].
    intros H. symmetry in H. by apply Hw in H.
Qed.

(** ** The statements at sample inputs *)

Lemma falsy_identifier_row_skipped_witness :
  [Py.VInt 0; Py.VStr "bob ray"] !! ID_COLUMN_INDEX = Some (Py.VInt 0)
  /\ Py.truthy (Py.VInt 0) = false
  /\ process_certificates
       (set_workbook demo_world
          (demo_header :: [row_A] ++ [Py.VInt 0; Py.VStr "bob ray"] :: [row_C]))
       "template.docx" "names.xlsx" true empty_state
     = process_certificates
         (set_workbook demo_world (demo_header :: [row_A] ++ [row_C]))
         "template.docx" "names.xlsx" true empty_state.
Proof.
  split; [reflexivity |]. split; [reflexivity |].
  apply (falsy_identifier_row_skipped demo_world "template.docx" "names.xlsx"
           true demo_header [row_A] [row_C] [Py.VInt 0; Py.VStr "bob ray"]
           (Py.VInt 0) empty_state); reflexivity.
Defined.


Lemma placeholder_run_appended_witness :
  open_document demo_world "template.docx" = Some demo_template
  /\ fill_template demo_world "template.docx" (Py.VStr "jane doe") empty_state
     = (Ok (demo_fill "Jane Doe"), empty_state)
  /\ generate_pdf demo_world "template.docx" (Py.VStr "ID+001")
       (Py.VStr "jane doe") empty_state
     = (Ok tt, rendered demo_world "ID001" (demo_fill "Jane Doe") empty_state).
Proof.
  split; [reflexivity |].
  exact (placeholder_run_appended demo_world "template.docx" (Py.VStr "ID+001")
           (Py.VStr "jane doe") empty_state demo_template _ _ _
           eq_refl eq_refl).
Defined.

Lemma output_name_from_identifier_witness :
  apart demo_world
  /\ generate_pdf demo_world "template.docx" (Py.VStr "ID+001") (Py.VStr "jane doe")
    empty_state
  = (Ok tt, rendered demo_world "ID001" (demo_fill "Jane Doe") empty_state)
  /\ generate_pdf demo_world "template.docx" (Py.VStr "ID+001") Py.VNone
       empty_state
     = (Ok tt, rendered demo_world "ID001" (demo_fill " ") empty_state)
  /\ dom (files (rendered demo_world "ID001" (demo_fill " ") empty_state))
     = dom (files (rendered demo_world "ID001" (demo_fill "Jane Doe") empty_state)).
Proof.
  split; [exact apart_demo_world |].
  split; [reflexivity |]. split; [reflexivity |].
  apply (output_name_from_identifier demo_world "template.docx"
           (Py.VStr "ID+001") (Py.VStr "jane doe") Py.VNone empty_state
           (rendered demo_world "ID001" (demo_fill "Jane Doe") empty_state)
           (rendered demo_world "ID001" (demo_fill " ") empty_state)
           apart_demo_world); reflexivity.
Defined.

Lemma count_of_rendered_rows_witness :
  apart demo_world
  /\ forallb (renders demo_world "template.docx") [row_A; row_B; row_C] = true
  /\ exists st',
       process_certificates
         (set_workbook demo_world (demo_header :: [row_A; row_B; row_C]))
         "template.docx" "names.xlsx" true empty_state
       = (Ok 3%nat, st')
       /\ converted st' = ["A.pdf"; "B.pdf"; "C.pdf"]
       /\ size (files st') = 3%nat.
Proof.
  split; [exact apart_demo_world |]. split; [reflexivity |].
  destruct (count_of_rendered_rows demo_world "template.docx" "names.xlsx" true
              demo_header [row_A; row_B; row_C] empty_state
              apart_demo_world eq_refl)
    as (st' & Hrun & Hconv & Hdom & Hsize).
  exists st'. split; [exact Hrun |]. split; [exact Hconv |].
  rewrite <- size_dom, Hdom.
  replace (dom (files empty_state)) with (∅ : gset string) by reflexivity.
  rewrite names_fresh.
  destruct (decide (NoDup (map (pdf_at demo_world) [row_A; row_B; row_C])))
    as [_|Hdup]; [exact Hsize |].
  destruct Hdup. refine (bool_decide_unpack _ _). vm_compute. exact I.
Defined.

Lemma failure_aborts_run_witness :
  apart failing_world
  /\ process_certificates (set_workbook failing_world (demo_header :: [row_A]))
    "template.docx" "names.xlsx" false empty_state
  = (Ok 1%nat, rendered demo_world "A" (demo_fill "Ann Lee") empty_state)
  /\ Py.truthy (Py.VStr "B") = true
  /\ generate_pdf failing_world "template.docx" (Py.VStr "B") (Py.VStr "bob ray")
       (rendered demo_world "A" (demo_fill "Ann Lee") empty_state)
     = (Raise ConvertError,
        saved failing_world "B" (demo_fill "Bob Ray")
          (rendered demo_world "A" (demo_fill "Ann Lee") empty_state))
  /\ process_certificates
       (set_workbook failing_world (demo_header :: [row_A] ++ row_B :: [row_C]))
       "template.docx" "names.xlsx" false empty_state
     = (Raise ConvertError,
        saved failing_world "B" (demo_fill "Bob Ray")
          (rendered demo_world "A" (demo_fill "Ann Lee") empty_state))
  /\ files (saved failing_world "B" (demo_fill "Bob Ray")
              (rendered demo_world "A" (demo_fill "Ann Lee") empty_state)) !! "A.pdf"
     = files (rendered demo_world "A" (demo_fill "Ann Lee") empty_state) !! "A.pdf".
Proof.
  split; [exact apart_failing_world |].
  split; [reflexivity |]. split; [reflexivity |]. split; [reflexivity |].
  pose proof (failure_aborts_run failing_world "template.docx" "names.xlsx" false
                demo_header [row_A] [row_C] (Py.VStr "B") (Py.VStr "bob ray") []
                empty_state (rendered demo_world "A" (demo_fill "Ann Lee") empty_state)
                (saved failing_world "B" (demo_fill "Bob Ray")
                   (rendered demo_world "A" (demo_fill "Ann Lee") empty_state))
                1%nat ConvertError apart_failing_world eq_refl eq_refl eq_refl)
    as (Hrun & _ & Hfiles & _).
  split; [exact Hrun | exact (Hfiles "A")].
Defined.

(** * Further properties *)

(** ** The sanitizer on text *)

Section SanitizerMore.
Import Py.

Lemma replace1_clean (c : ascii) (new s : string) :
  contains c s = false -> replace1 c new s = s.
Proof.
  induction s as [|d s IH]; [done |]. cbn [contains replace1].
  intros [Hd Hs]%orb_false_iff. by rewrite Hd, IH.
Qed.

Lemma lstrip_clean (s : string) : starts_with_space s = false -> lstrip s = s.
Proof.
  destruct s as [|c s]; [done |]. unfold starts_with_space. cbn. by intros ->.
Qed.

Lemma rstrip_clean (s : string) : ends_with_space s = false -> rstrip s = s.
Proof.
  unfold ends_with_space. induction s as [|c s IH]; [done |].
  cbn [last_char rstrip]. destruct s as [|d s].
  - cbn. by intros ->.
  - intros H. rewrite (IH H). done.
Qed.

Lemma strip_clean (s : string) :
  starts_with_space s = false -> ends_with_space s = false -> strip s = s.
Proof. intros H1 H2. unfold strip. by rewrite lstrip_clean, rstrip_clean. Qed.

Lemma sanitize_fixed (s : string) :
  contains "+" s = false ->
  starts_with_space s = false ->
  ends_with_space s = false ->
  sanitize_certificate_id (VStr s) = s.
Proof.
  intros Hp H1 H2. unfold sanitize_certificate_id. cbn [str].
  rewrite replace1_clean by done. by apply strip_clean.
Qed.

(** X1: the sanitizer changes nothing in a text that holds no '+' and
    neither starts nor ends with whitespace; whitespace inside the text is
    kept. *)
Theorem sanitize_clean_text (s : string) :
  contains "+" s = false ->
  starts_with_space s = false ->
  ends_with_space s = false ->
  sanitize_certificate_id (VStr s) = s.
Proof. apply sanitize_fixed. Qed.

Lemma sanitize_clean_text_witness :
  contains "+" "ID 001" = false
  /\ starts_with_space "ID 001" = false
  /\ ends_with_space "ID 001" = false
  /\ sanitize_certificate_id (VStr "ID 001") = "ID 001".
Proof.
  repeat (split; [reflexivity |]).
  apply (sanitize_clean_text "ID 001"); reflexivity.
Defined.

(** X2: sanitizing is idempotent: the stem of an identifier, taken as an
    identifier, is its own stem. *)
Theorem sanitize_idempotent (certificate_id : Value) :
  sanitize_certificate_id (VStr (sanitize_certificate_id certificate_id))
  = sanitize_certificate_id certificate_id.
Proof.
  apply sanitize_fixed.
  - apply contains_strip, contains_replace1.
  - apply strip_no_edge_space.
  - apply strip_no_edge_space.
Qed.

Lemma all_space_append (s t : string) :
  all_space (s +:+ t) = all_space s && all_space t.
Proof.
  induction s as [|c s IH]; [done |].
  rewrite append_cons. cbn [all_space]. by rewrite IH, andb_assoc.
Qed.

Lemma strip_empty (s : string) : bool_decide (strip s = "") = all_space s.
Proof.
  destruct (all_space s) eqn:E.
  - apply bool_decide_eq_true. by apply all_space_strip.
  - apply bool_decide_eq_false. intros H.
    destruct (strip_split s) as (l & r & Hs & Hl & Hr).
    rewrite H, append_nil in Hs. rewrite Hs, all_space_append, Hl, Hr in E. done.
Qed.

Lemma all_space_replace1 (c : ascii) (s : string) :
  all_space (replace1 c "" s)
  = all_chars (fun d => Ascii.eqb d c || isspace d) s.
Proof.
  induction s as [|d s IH]; [done |]. cbn [replace1 all_chars].
  destruct (Ascii.eqb d c); [by rewrite append_nil |].
  cbn [all_space orb]. by rewrite IH.
Qed.

(** X3: the stem is empty exactly when the text of the identifier is made
    of '+' and whitespace characters only (the empty text included). *)
Theorem sanitize_empty_stem (certificate_id : Value) :
  bool_decide (sanitize_certificate_id certificate_id = "")
  = all_chars (fun c => Ascii.eqb c "+" || isspace c) (str certificate_id).
Proof.
  unfold sanitize_certificate_id. by rewrite strip_empty, all_space_replace1.
Qed.

End SanitizerMore.

(** ** What one rendering does to the directory *)

Section RenderingMore.
Context (w : World) (template_path : string).

Lemma generate_pdf_outcome (certificate_id name : Py.Value) (st : State) :
  let clean_id := sanitize_certificate_id certificate_id in
  let run := generate_pdf w template_path certificate_id name st in
  (exists filled, load_and_fill w template_path name = Ok filled
                  /\ run = (Ok tt, rendered w clean_id filled st))
  \/ (exists filled, load_and_fill w template_path name = Ok filled
                     /\ run = (Raise ConvertError, saved w clean_id filled st))
  \/ (exists e, e <> ConvertError /\ run = (Raise e, st)).
Proof.
  cbn zeta. rewrite generate_pdf_spec. cbn zeta.
  destruct (load_and_fill w template_path name) as [filled|e] eqn:E.
  - destruct (save_ok w _ filled); [|right; right; by exists SaveError].
    destruct (convert_ok w _ filled); [left | right; left]; by exists filled.
  - right; right. exists e. split; [|done].
    unfold load_and_fill, fill in E.
    destruct (open_document w template_path) as [doc|]; [|by injection E as <-].
    destruct (paragraphs doc !! NAME_PARAGRAPH_INDEX) as [par|]; [|by injection E as <-].
    destruct (runs par !! NAME_RUN_INDEX); [done | by injection E as <-].
Qed.

Lemma generate_pdf_other (certificate_id name : Py.Value) (st : State)
    (other : string) :
  other <> resolve w (sanitize_certificate_id certificate_id +:+ ".pdf") ->
  other <> resolve w (sanitize_certificate_id certificate_id +:+ ".docx") ->
  files (snd (generate_pdf w template_path certificate_id name st)) !! other
  = files st !! other
  /\ log (snd (generate_pdf w template_path certificate_id name st)) = log st.
Proof.
  intros Hpdf Hdocx.
  destruct (generate_pdf_outcome certificate_id name st)
    as [(filled & _ & ->) | [(filled & _ & ->) | (e & _ & ->)]]; cbn [snd].
  - rewrite rendered_lookup. split; [|done]. by rewrite !decide_False.
  - cbn [saved files log]. split; [|done]. by rewrite lookup_insert_ne.
  - done.
Qed.

(** X6: whatever its outcome, a rendering touches two files of the
    directory at most, those that [<stem>.pdf] and [<stem>.docx] denote:
    every other file is as it was, and so are the progress messages. *)
Theorem generate_pdf_frame (certificate_id name : Py.Value) (st : State)
    (other : string) :
  other <> resolve w (sanitize_certificate_id certificate_id +:+ ".pdf") ->
  other <> resolve w (sanitize_certificate_id certificate_id +:+ ".docx") ->
  files (snd (generate_pdf w template_path certificate_id name st)) !! other
  = files st !! other
  /\ log (snd (generate_pdf w template_path certificate_id name st)) = log st.
Proof. apply generate_pdf_other. Qed.

(** X7: after a rendering that succeeds, [<stem>.pdf] holds the rendering
    of the filled template and there is no [<stem>.docx]: a file of that
    name that was in the directory before is gone. *)
Theorem generate_pdf_success (certificate_id name : Py.Value) (st st' : State) :
  apart w ->
  generate_pdf w template_path certificate_id name st = (Ok tt, st') ->
  exists filled,
    load_and_fill w template_path name = Ok filled
    /\ files st' !! resolve w (sanitize_certificate_id certificate_id +:+ ".pdf")
       = Some (Pdf filled)
    /\ files st' !! resolve w (sanitize_certificate_id certificate_id +:+ ".docx")
       = None.
Proof.
  intros Hw (filled & Hf & ->)%generate_pdf_ok_inv. exists filled.
  split; [done |]. rewrite !rendered_lookup. split.
  - rewrite decide_False by apply Hw. by rewrite decide_True.
  - by rewrite decide_True.
Qed.


(** X9: rendering is repeatable: after a rendering that succeeded, the
    same rendering again succeeds and leaves the same files. *)
Theorem generate_pdf_again (certificate_id name : Py.Value) (st st1 : State) :
  generate_pdf w template_path certificate_id name st = (Ok tt, st1) ->
  exists st2,
    generate_pdf w template_path certificate_id name st1 = (Ok tt, st2)
    /\ files st2 = files st1.
Proof.
  intros Hok.
  pose proof Hok as (filled & Hf & ->)%generate_pdf_ok_inv.
  rewrite generate_pdf_spec in Hok. cbn zeta in Hok. rewrite Hf in Hok.
  destruct (save_ok w _ filled) eqn:Hs; [|done].
  destruct (convert_ok w _ filled) eqn:Hc; [|done].
  eexists. split.
  { rewrite generate_pdf_spec. cbn zeta. by rewrite Hf, Hs, Hc. }
  apply map_eq. intros file. rewrite !rendered_lookup.
  by repeat case_decide.
Qed.

(** X10: a failed conversion does not spoil a later attempt: when the
    converter failed for a row and left its [.docx] behind, a rendering of
    the row that succeeds (in a world [w'] whose converter works, on the
    same host) leaves the files it would have left without the failed
    attempt. *)
Theorem generate_pdf_after_failure (w' : World) (certificate_id name : Py.Value)
    (st st1 st2 : State) :
  resolve w' (sanitize_certificate_id certificate_id +:+ ".docx")
  = resolve w (sanitize_certificate_id certificate_id +:+ ".docx") ->
  generate_pdf w template_path certificate_id name st
  = (Raise ConvertError, st1) ->
  generate_pdf w' template_path certificate_id name st = (Ok tt, st2) ->
  exists st3,
    generate_pdf w' template_path certificate_id name st1 = (Ok tt, st3)
    /\ files st3 = files st2.
Proof.
  intros Hhost Hfail Hok.
  pose proof Hok as (filled & Hf & ->)%generate_pdf_ok_inv.
  rewrite generate_pdf_spec in Hok. cbn zeta in Hok. rewrite Hf in Hok.
  destruct (save_ok w' _ filled) eqn:Hs; [|done].
  destruct (convert_ok w' _ filled) eqn:Hc; [|done].
  eexists. split.
  { rewrite generate_pdf_spec. cbn zeta. by rewrite Hf, Hs, Hc. }
  apply generate_pdf_raise_inv in Hfail as [-> | (filled1 & _ & ->)]; [done |].
  apply map_eq. intros file. rewrite !rendered_lookup.
  case_decide as Hd; [done |]. case_decide; [done |].
  cbn [saved files]. rewrite lookup_insert_ne; [done |]. by rewrite <- Hhost.
Qed.

End RenderingMore.

(** ** What a run does to the directory *)

Section RunMore.
Context (w : World) (template_path : string) (log_callback : bool).

Lemma steady_logged (message : string) (n : string) :
  steady (logged log_callback message) n.
Proof. left. intros st. by rewrite logged_files. Qed.

Lemma steady_compose (T1 T2 : State -> State) (n : string) :
  steady T1 n -> steady T2 n -> steady (fun st => T2 (T1 st)) n.
Proof.
  intros H1 [H2 | [v H2]]; [|right; by exists v].
  destruct H1 as [H1 | [v H1]].
  - left. intros st. by rewrite H2, H1.
  - right. exists v. intros st. by rewrite H2, H1.
Qed.

Lemma steady_rendered (clean_id : string) (doc : Document) (n : string) :
  steady (rendered w clean_id doc) n.
Proof.
  destruct (decide (n = resolve w (clean_id +:+ ".docx"))) as [Hd | Hd].
  { right. exists None. intros st. by rewrite rendered_lookup, decide_True. }
  destruct (decide (n = resolve w (clean_id +:+ ".pdf"))) as [Hp | Hp].
  { right. eexists. intros st.
    by rewrite rendered_lookup, decide_False, decide_True. }
  left. intros st. by rewrite rendered_lookup, !decide_False.
Qed.

Lemma steady_saved (clean_id : string) (doc : Document) (n : string) :
  steady (saved w clean_id doc) n.
Proof.
  destruct (decide (n = resolve w (clean_id +:+ ".docx"))) as [-> | Hd].
  { right. eexists. intros st. cbn [saved files]. apply lookup_insert_eq. }
  left. intros st. cbn [saved files]. by rewrite lookup_insert_ne.
Qed.

(** The outcome of the loop body does not depend on the state, and its
    effect on the files is steady and confined to the row's two files. *)
Lemma row_body_uniform (row : Row) (count : nat) :
  exists (r : Result nat) (T : State -> State),
    (forall st, row_body w template_path log_callback row count st = (r, T st))
    /\ (forall n, steady T n)
    /\ (forall n st,
          (counted row = true -> n <> pdf_at w row /\ n <> docx_at w row) ->
          files (T st) !! n = files st !! n).
Proof.
  destruct row as [|certificate_id [|name cells]].
  - exists (Raise IndexError), id. split; [done |]. split; [by left | done].
  - destruct (Py.truthy certificate_id) eqn:Ht.
    + exists (Raise IndexError), id. split; [|split; [by left | done]].
      intros st. by apply row_body_short.
    + exists (Ok count), id. split; [|split; [by left | done]].
      intros st. by eapply row_body_falsy.
  - destruct (Py.truthy certificate_id) eqn:Ht; cycle 1.
    { exists (Ok count), id. split; [|split; [by left | done]].
      intros st. by eapply row_body_falsy. }
    set (message := progress_message certificate_id name).
    set (clean_id := sanitize_certificate_id certificate_id).
    destruct (load_and_fill w template_path name) as [filled|e] eqn:Hf; cycle 1.
    { exists (Raise e), (logged log_callback message).
      split; [|split; [apply steady_logged | intros; by rewrite logged_files]].
      intros st. rewrite row_body_renderable, generate_pdf_spec by done.
      cbn zeta. by rewrite Hf. }
    destruct (save_ok w (clean_id +:+ ".docx") filled) eqn:Hs; cycle 1.
    { exists (Raise SaveError), (logged log_callback message).
      split; [|split; [apply steady_logged | intros; by rewrite logged_files]].
      intros st. rewrite row_body_renderable, generate_pdf_spec by done.
      cbn zeta. fold clean_id. by rewrite Hf, Hs. }
    destruct (convert_ok w (clean_id +:+ ".pdf") filled) eqn:Hc.
    + exists (Ok (count + 1)%nat),
        (fun st => rendered w clean_id filled (logged log_callback message st)).
      split; [|split].
      * intros st. rewrite row_body_renderable, generate_pdf_spec by done.
        cbn zeta. fold clean_id. by rewrite Hf, Hs, Hc.
      * intros n. apply steady_compose;
          [apply steady_logged | apply steady_rendered].
      * intros n st Hn. destruct (Hn Ht) as [Hp Hd].
        rewrite rendered_lookup, logged_files. by rewrite !decide_False.
    + exists (Raise ConvertError),
        (fun st => saved w clean_id filled (logged log_callback message st)).
      split; [|split].
      * intros st. rewrite row_body_renderable, generate_pdf_spec by done.
        cbn zeta. fold clean_id. by rewrite Hf, Hs, Hc.
      * intros n. apply steady_compose;
          [apply steady_logged | apply steady_saved].
      * intros n st Hn. destruct (Hn Ht) as [Hp Hd].
        cbn [saved files]. rewrite logged_files.
        by rewrite lookup_insert_ne.
Qed.

Lemma data_rows_uniform (rows : list Row) (count : nat) :
  exists (r : Result nat) (T : State -> State),
    (forall st, data_rows w template_path log_callback rows count st = (r, T st))
    /\ (forall n, steady T n)
    /\ (forall n st,
          Forall (fun row => counted row = true ->
                             n <> pdf_at w row /\ n <> docx_at w row) rows ->
          files (T st) !! n = files st !! n).
Proof.
  revert count. induction rows as [|row rows IH]; intros count.
  { exists (Ok count), id. split; [done |]. split; [by left | done]. }
  destruct (row_body_uniform row count) as (r1 & T1 & Hrun1 & Hst1 & Hfr1).
  destruct r1 as [count'|e].
  - destruct (IH count') as (r2 & T2 & Hrun2 & Hst2 & Hfr2).
    exists r2, (fun st => T2 (T1 st)). split; [|split].
    + intros st. cbn [data_rows]. unfold bind. by rewrite Hrun1, Hrun2.
    + intros n. by apply steady_compose.
    + intros n st [Hrow Hrest]%Forall_cons. by rewrite Hfr2, Hfr1.
  - exists (Raise e), T1. split; [|split].
    + intros st. cbn [data_rows]. unfold bind. by rewrite Hrun1.
    + done.
    + intros n st [Hrow Hrest]%Forall_cons. by apply Hfr1.
Qed.

End RunMore.

Section RunTheorems.
Context (w : World) (template_path excel_path : string) (log_callback : bool).

(** X11: a run, whatever its outcome, leaves alone every file that is
    denoted neither by [<stem>.pdf] nor by [<stem>.docx] for the stem of
    a row after the header with a truthy identifier. *)
Theorem process_frame (header : Row) (rows : list Row) (st : State)
    (other : string) :
  Forall (fun row => counted row = true ->
                     other <> pdf_at w row /\ other <> docx_at w row) rows ->
  files (snd (process_certificates (set_workbook w (header :: rows))
                template_path excel_path log_callback st)) !! other
  = files st !! other.
Proof.
  intros Hother. rewrite process_data_rows.
  destruct (data_rows_uniform w template_path log_callback rows 0%nat)
    as (r & T & Hrun & _ & Hframe).
  rewrite Hrun. cbn [snd]. by apply Hframe.
Qed.

(** X12: running the batch again on the directory a run left gives the
    same result (the same count, or the same error) and changes no file. *)
Theorem process_rerun (st : State) :
  fst (process_certificates w template_path excel_path log_callback
         (snd (process_certificates w template_path excel_path log_callback st)))
  = fst (process_certificates w template_path excel_path log_callback st)
  /\ files (snd (process_certificates w template_path excel_path log_callback
                   (snd (process_certificates w template_path excel_path
                           log_callback st))))
     = files (snd (process_certificates w template_path excel_path
                     log_callback st)).
Proof.
  unfold process_certificates.
  destruct (open_workbook w excel_path) as [[|header rows]|]; [done | | done].
  cbn [rows_loop Nat.eqb HEADER_ROW_INDEX].
  destruct (data_rows_uniform w template_path log_callback rows 0%nat)
    as (r & T & Hrun & Hsteady & _).
  rewrite !rows_loop_data_rows, !Hrun. cbn [fst snd]. split; [done |].
  apply map_eq. intros n.
  destruct (Hsteady n) as [H | [v H]]; by rewrite !H.
Qed.

Lemma data_rows_ok_inv (rows : list Row) (count count' : nat) (st st' : State) :
  data_rows w template_path log_callback rows count st = (Ok count', st') ->
  count' = (count + length (List.filter counted rows))%nat
  /\ converted st' = converted st ++ map pdf_file (List.filter counted rows)
  /\ log st'
     = log st ++ (if log_callback
                  then map row_message (List.filter counted rows) else []).
Proof.
  revert count st. induction rows as [|row rows IH]; intros count st.
  { intros [= <- <-]. cbn. rewrite Nat.add_0_r, app_nil_r.
    split; [done |]. split; [done |]. destruct log_callback; by rewrite app_nil_r. }
  cbn [data_rows]. unfold bind.
  destruct row as [|certificate_id [|name cells]];
    [done | | ]; cbn [List.filter counted];
    destruct (Py.truthy certificate_id) eqn:Ht.
  - by rewrite row_body_short.
  - erewrite row_body_falsy by done. apply IH.
  - rewrite row_body_renderable by done.
    destruct (generate_pdf w _ _ _ _) as [[[]|e] st1] eqn:Hgen; [|done].
    apply generate_pdf_ok_inv in Hgen as (filled & _ & ->).
    intros (-> & -> & ->)%IH. cbn [length map rendered converted log].
    rewrite logged_converted. split; [lia |]. split.
    + by rewrite <- app_assoc.
    + unfold logged. destruct log_callback; [|done].
      cbn [log]. by rewrite <- app_assoc.
  - erewrite row_body_falsy by done. apply IH.
Qed.

(** X13: when a run returns a count, the count is the number of rows
    after the header whose first cell is truthy, rows with a falsy
    identifier being passed over; the converter was called once for each
    of them, in row order, and so was the progress callback when there is
    one. *)
Theorem process_success_count (header : Row) (rows : list Row)
    (st st' : State) (count : nat) :
  process_certificates (set_workbook w (header :: rows)) template_path
    excel_path log_callback st = (Ok count, st') ->
  count = length (List.filter counted rows)
  /\ converted st' = converted st ++ map pdf_file (List.filter counted rows)
  /\ log st'
     = log st ++ (if log_callback
                  then map row_message (List.filter counted rows) else []).
Proof. rewrite process_data_rows. apply data_rows_ok_inv. Qed.

End RunTheorems.

Lemma generate_pdf_log (w : World) (template_path : string)
    (certificate_id name : Py.Value) (st : State) :
  log (snd (generate_pdf w template_path certificate_id name st)) = log st.
Proof.
  by destruct (generate_pdf_outcome w template_path certificate_id name st)
    as [(filled & _ & ->) | [(filled & _ & ->) | (e & _ & ->)]].
Qed.

(** X14: when the rendering of a row fails, the progress callback has
    already been called for that row: the message naming the row is the
    last one in the log, after the messages of the rows before it. *)
Theorem failing_row_is_logged (w : World) (template_path excel_path : string)
    (header : Row) (pre post : list Row)
    (certificate_id name : Py.Value) (cells : Row)
    (st st0 st2 : State) (count : nat) (e : Error) :
  process_certificates (set_workbook w (header :: pre)) template_path excel_path
    true st = (Ok count, st0) ->
  Py.truthy certificate_id = true ->
  generate_pdf w template_path certificate_id name
    (logged true (progress_message certificate_id name) st0)
  = (Raise e, st2) ->
  log (snd (process_certificates
              (set_workbook w
                 (header :: pre ++ (certificate_id :: name :: cells) :: post))
              template_path excel_path true st))
  = log st0 ++ [progress_message certificate_id name].
Proof.
  intros Hpre Ht Hgen. rewrite process_data_rows in Hpre.
  rewrite process_data_rows, data_rows_app.
  rewrite (bind_ok _ _ _ _ _ Hpre). cbn [data_rows].
  erewrite bind_raise by by rewrite row_body_renderable, Hgen.
  cbn [snd].
  pose proof (generate_pdf_log w template_path certificate_id name
                (logged true (progress_message certificate_id name) st0)) as H.
  by rewrite Hgen in H.
Qed.

(** ** The form *)

Section Form.
Context (w : World) (h : Host).


(** X16: when one of the three paths is rejected, nothing is read or
    written: the directory, the log and the path fields are as they were,
    and the one box shown is a warning that names the first path rejected,
    in the order template, spreadsheet, output folder. *)
Theorem on_generate_rejected (f : Frame) :
  paths_valid h f = false ->
  on_generate w h f
  = message_box
      (if negb (is_file h (Py.strip (template_ctrl f)))
       then "Please select a valid .docx template file."
       else if negb (is_file h (Py.strip (excel_ctrl f)))
            then "Please select a valid .xlsx file."
            else "Please select a valid output folder.")
      "Validation" ICON_WARNING f
  /\ run_state (on_generate w h f) = run_state f
  /\ log_ctrl (on_generate w h f) = log_ctrl f.
Proof.
  unfold on_generate, paths_valid, log_ctrl. cbn zeta.
  destruct (is_file h (Py.strip (template_ctrl f))); [|done].
  destruct (is_file h (Py.strip (excel_ctrl f))); [|done].
  by destruct (is_dir h (Py.strip (output_ctrl f))).
Qed.

(** X17: when the paths are accepted and the batch returns a count, the
    count reported is the number of rows after the header with a truthy
    identifier, which is the number of conversions made; the log gains
    the line "Starting generation...", one progress line for each such
    row, in row order, and the line with the count; the box shown reports
    the same count. *)
Theorem on_generate_report (f : Frame) (header : Row) (rows : list Row)
    (total : nat) (st' : State) :
  paths_valid h f = true ->
  open_workbook w (Py.strip (excel_ctrl f)) = Some (header :: rows) ->
  process_certificates w (Py.strip (template_ctrl f)) (Py.strip (excel_ctrl f))
    true (logged true "Starting generation..." (run_state f))
  = (Ok total, st') ->
  total = length (List.filter counted rows)
  /\ converted (run_state (on_generate w h f))
     = converted (run_state f) ++ map pdf_file (List.filter counted rows)
  /\ log (run_state (on_generate w h f))
     = log (run_state f)
       ++ ["Starting generation..."]
       ++ map row_message (List.filter counted rows)
       ++ ["Completed. Generated " +:+ str_count total +:+ " certificates."]
  /\ last (shown (on_generate w h f))
     = Some {| box_message := "Done. Generated " +:+ str_count total
                              +:+ " certificates.";
               box_caption := "Success"; box_style := ICON_INFORMATION |}.
Proof.
  intros Hvalid Hbook Hrun. unfold on_generate. cbn zeta.
  unfold paths_valid in Hvalid.
  apply andb_true_iff in Hvalid as [[Ht Hx]%andb_true_iff Ho].
  rewrite Ht, Hx, Ho. cbn [negb].
  cbn [frame_log set_button set_run_state run_state].
  rewrite Hrun. cbn [frame_log set_button set_run_state message_box run_state shown].
  unfold process_certificates in Hrun. rewrite Hbook in Hrun.
  cbn [rows_loop Nat.eqb HEADER_ROW_INDEX] in Hrun.
  rewrite rows_loop_data_rows in Hrun.
  apply data_rows_ok_inv in Hrun as (Htotal & Hconv & Hlog).
  split; [done |]. rewrite logged_converted. split; [done |]. split.
  - cbn [logged log]. rewrite Hlog. cbn [logged log].
    by rewrite <- !app_assoc.
  - by rewrite last_snoc.
Qed.

End Form.

(** ** Which document a file holds *)

Section Holds.
Context (w : World) (template_path : string) (log_callback : bool).

Lemma file_after_app (pre post : list Row) (file : string) (held : option File) :
  file_after w template_path (pre ++ post) file held
  = file_after w template_path post file
      (file_after w template_path pre file held).
Proof.
  revert held. induction pre as [|row pre IH]; intros held; [done |].
  cbn [app file_after]. apply IH.
Qed.

Lemma data_rows_file_after (rows : list Row) (count count' : nat)
    (st st' : State) (file : string) :
  data_rows w template_path log_callback rows count st = (Ok count', st') ->
  files st' !! file = file_after w template_path rows file (files st !! file).
Proof.
  revert count st. induction rows as [|row rows IH]; intros count st.
  { by intros [= _ <-]. }
  cbn [data_rows file_after]. unfold bind.
  destruct row as [|certificate_id [|name cells]]; [done | |];
    destruct (Py.truthy certificate_id) eqn:Ht.
  - by rewrite row_body_short.
  - erewrite row_body_falsy by done. apply IH.
  - rewrite row_body_renderable by done.
    destruct (generate_pdf w _ _ _ _) as [[[]|e] st1] eqn:Hgen; [|done].
    apply generate_pdf_ok_inv in Hgen as (filled & Hf & ->).
    intros Hrest. rewrite (IH _ _ Hrest). f_equal.
    rewrite rendered_lookup, logged_files, Hf. done.
  - erewrite row_body_falsy by done. apply IH.
Qed.

(** In a run that returns, the template was loaded and filled for every
    counted row. *)
Lemma data_rows_ok_loads (rows : list Row) (count count' : nat) (st st' : State) :
  data_rows w template_path log_callback rows count st = (Ok count', st') ->
  Forall (fun row =>
            counted row = true ->
            exists certificate_id name cells filled,
              row = certificate_id :: name :: cells
              /\ load_and_fill w template_path name = Ok filled) rows.
Proof.
  revert count st. induction rows as [|row rows IH]; intros count st.
  { constructor. }
  cbn [data_rows]. unfold bind.
  destruct row as [|certificate_id [|name cells]]; [done | |];
    destruct (Py.truthy certificate_id) eqn:Ht.
  - by rewrite row_body_short.
  - erewrite row_body_falsy by done. intros Hrest. constructor; [|by eapply IH].
    cbn [counted]. by rewrite Ht.
  - rewrite row_body_renderable by done.
    destruct (generate_pdf w _ _ _ _) as [[[]|e] st1] eqn:Hgen; [|done].
    apply generate_pdf_ok_inv in Hgen as (filled & Hf & ->).
    intros Hrest. constructor; [|by eapply IH].
    intros _. by exists certificate_id, name, cells, filled.
  - erewrite row_body_falsy by done. intros Hrest. constructor; [|by eapply IH].
    cbn [counted]. by rewrite Ht.
Qed.

End Holds.

(** X18: when a run returns a count, what a file of the directory holds
    afterwards follows from what it held before, row by row: each row
    with a truthy identifier empties the file its [<stem>.docx] denotes
    and sets the file its [<stem>.pdf] denotes to the rendering of the
    template filled with its name.  So a file holds the document of the
    last row written to it. *)
Theorem rendered_file_of_row (w : World) (template_path excel_path : string)
    (log_callback : bool) (header : Row) (rows : list Row)
    (st st' : State) (count : nat) (file : string) :
  process_certificates (set_workbook w (header :: rows))
    template_path excel_path log_callback st = (Ok count, st') ->
  files st' !! file = file_after w template_path rows file (files st !! file).
Proof. rewrite process_data_rows. apply data_rows_file_after. Qed.

(** C10: an identifier that is truthy and sanitizes to the empty text is
    rendered, not skipped, under the empty stem: the name converted is
    [.pdf] (through [.docx], which is removed).  In a run that returns a
    count, two such rows anywhere after the header, whatever rows stand
    before, between and after them and whatever further cells they have,
    are both counted and both converted to [.pdf]; the second wipes out
    what the first wrote: past the second row the file of [.pdf] holds
    the second row's document and the file of [.docx] is empty, and the
    rows after it act on that.  The text "+", and a text of '+' and
    whitespace, are such identifiers. *)
Theorem empty_stem_rows_collide (w : World) (template_path excel_path : string)
    (log_callback : bool) (header : Row) (pre mid post : list Row)
    (id1 name1 : Py.Value) (cells1 : Row) (id2 name2 : Py.Value) (cells2 : Row)
    (st st' : State) (count : nat) :
  apart w ->
  Py.truthy id1 = true -> sanitize_certificate_id id1 = "" ->
  Py.truthy id2 = true -> sanitize_certificate_id id2 = "" ->
  process_certificates
    (set_workbook w
       (header :: pre ++ (id1 :: name1 :: cells1)
                  :: mid ++ (id2 :: name2 :: cells2) :: post))
    template_path excel_path log_callback st = (Ok count, st') ->
  count = (length (List.filter counted pre) + 1
           + length (List.filter counted mid) + 1
           + length (List.filter counted post))%nat
  /\ converted st'
     = converted st ++ map pdf_file (List.filter counted pre)
       ++ ".pdf" :: map pdf_file (List.filter counted mid)
       ++ ".pdf" :: map pdf_file (List.filter counted post)
  /\ (exists doc2,
        load_and_fill w template_path name2 = Ok doc2
        /\ files st' !! resolve w ".pdf"
           = file_after w template_path post (resolve w ".pdf") (Some (Pdf doc2))
        /\ files st' !! resolve w ".docx"
           = file_after w template_path post (resolve w ".docx") None)
  /\ Py.truthy (Py.VStr "+") = true
  /\ sanitize_certificate_id (Py.VStr "+") = ""
  /\ Py.truthy (Py.VStr " + +") = true
  /\ sanitize_certificate_id (Py.VStr " + +") = "".
Proof.
  intros Hw Ht1 Hs1 Ht2 Hs2 Hrun. rewrite process_data_rows in Hrun.
  pose proof (data_rows_ok_inv _ _ _ _ _ _ _ _ Hrun) as (Hcount & Hconv & _).
  pose proof (data_rows_ok_loads _ _ _ _ _ _ _ _ Hrun) as Hloads.
  assert (Hfilter :
    List.filter counted
      (pre ++ (id1 :: name1 :: cells1) :: mid ++ (id2 :: name2 :: cells2) :: post)
    = List.filter counted pre ++ (id1 :: name1 :: cells1)
      :: List.filter counted mid ++ (id2 :: name2 :: cells2)
      :: List.filter counted post).
  { rewrite List.filter_app. cbn [List.filter counted]. rewrite Ht1.
    rewrite List.filter_app. cbn [List.filter counted]. by rewrite Ht2. }
  rewrite Hfilter in Hcount, Hconv.
  split.
  { rewrite Hcount. rewrite length_app. cbn [length]. rewrite length_app.
    cbn [length]. lia. }
  split.
  { rewrite Hconv. rewrite map_app. cbn [map]. rewrite map_app. cbn [map].
    unfold pdf_file at 2 4. cbn [row_stem]. by rewrite Hs1, Hs2, !append_nil. }
  split; [|done].
  apply Forall_app in Hloads as [_ Hloads].
  apply Forall_cons in Hloads as [_ Hloads].
  apply Forall_app in Hloads as [_ Hloads].
  apply Forall_cons in Hloads as [Hrow2 _].
  destruct Hrow2 as (c & n & cs & doc2 & [= <- <- <-] & Hf2);
    [cbn [counted]; done |].
  exists doc2. split; [done |].
  rewrite !(data_rows_file_after _ _ _ _ _ _ _ _ _ Hrun).
  rewrite !file_after_app. cbn [file_after]. rewrite !file_after_app.
  cbn [file_after]. rewrite Ht1, Ht2, Hf2.
  unfold docx_at, pdf_at, docx_file, pdf_file. cbn [row_stem].
  rewrite Hs1, Hs2, !append_nil. split; f_equal.
  - rewrite (decide_False (P := resolve w ".pdf" = resolve w ".docx")).
    + by rewrite (decide_True (P := resolve w ".pdf" = resolve w ".pdf")).
    + apply (Hw "" "").
  - by rewrite (decide_True (P := resolve w ".docx" = resolve w ".docx")).
Qed.

(** ** The further statements at sample inputs *)

Lemma generate_pdf_frame_witness :
  "notes.docx" <> sanitize_certificate_id (Py.VStr "A") +:+ ".pdf"
  /\ "notes.docx" <> sanitize_certificate_id (Py.VStr "A") +:+ ".docx"
  /\ files (snd (generate_pdf demo_world "template.docx" (Py.VStr "A")
                   (Py.VStr "ann lee") stocked_state)) !! "notes.docx"
     = Some (Docx demo_template).
Proof.
  assert (H1 : "notes.docx" <> sanitize_certificate_id (Py.VStr "A") +:+ ".pdf")
    by (intros H; discriminate H).
  assert (H2 : "notes.docx" <> sanitize_certificate_id (Py.VStr "A") +:+ ".docx")
    by (intros H; discriminate H).
  split; [exact H1 |]. split; [exact H2 |].
  destruct (generate_pdf_frame demo_world "template.docx" (Py.VStr "A")
              (Py.VStr "ann lee") stocked_state "notes.docx" H1 H2) as [Hf _].
  rewrite Hf. reflexivity.
Defined.

Lemma generate_pdf_success_witness :
  apart demo_world
  /\ files stocked_state !! "A.docx" = Some (Docx demo_template)
  /\ generate_pdf demo_world "template.docx" (Py.VStr "A") (Py.VStr "ann lee")
       stocked_state
     = (Ok tt, rendered demo_world "A" (demo_fill "Ann Lee") stocked_state)
  /\ exists filled,
       load_and_fill demo_world "template.docx" (Py.VStr "ann lee") = Ok filled
       /\ files (rendered demo_world "A" (demo_fill "Ann Lee") stocked_state) !! "A.pdf"
          = Some (Pdf filled)
       /\ files (rendered demo_world "A" (demo_fill "Ann Lee") stocked_state) !! "A.docx"
          = None.
Proof.
  split; [exact apart_demo_world |].
  split; [reflexivity |]. split; [reflexivity |].
  apply (generate_pdf_success demo_world "template.docx" (Py.VStr "A")
           (Py.VStr "ann lee") stocked_state _ apart_demo_world). reflexivity.
Defined.


Lemma generate_pdf_again_witness :
  generate_pdf demo_world "template.docx" (Py.VStr "A") (Py.VStr "ann lee")
    stocked_state
  = (Ok tt, rendered demo_world "A" (demo_fill "Ann Lee") stocked_state)
  /\ exists st2,
       generate_pdf demo_world "template.docx" (Py.VStr "A") (Py.VStr "ann lee")
         (rendered demo_world "A" (demo_fill "Ann Lee") stocked_state) = (Ok tt, st2)
       /\ files st2 = files (rendered demo_world "A" (demo_fill "Ann Lee") stocked_state).
Proof.
  split; [reflexivity |].
  apply (generate_pdf_again demo_world "template.docx" (Py.VStr "A")
           (Py.VStr "ann lee") stocked_state). reflexivity.
Defined.

Lemma generate_pdf_after_failure_witness :
  generate_pdf failing_world "template.docx" (Py.VStr "B") (Py.VStr "bob ray")
    empty_state
  = (Raise ConvertError, saved failing_world "B" (demo_fill "Bob Ray") empty_state)
  /\ generate_pdf demo_world "template.docx" (Py.VStr "B") (Py.VStr "bob ray")
       empty_state
     = (Ok tt, rendered demo_world "B" (demo_fill "Bob Ray") empty_state)
  /\ exists st3,
       generate_pdf demo_world "template.docx" (Py.VStr "B") (Py.VStr "bob ray")
         (saved failing_world "B" (demo_fill "Bob Ray") empty_state) = (Ok tt, st3)
       /\ files st3 = files (rendered demo_world "B" (demo_fill "Bob Ray") empty_state).
Proof.
  split; [reflexivity |]. split; [reflexivity |].
  apply (generate_pdf_after_failure failing_world "template.docx" demo_world
           (Py.VStr "B") (Py.VStr "bob ray") empty_state); reflexivity.
Defined.

Lemma process_frame_witness :
  Forall (fun row => counted row = true ->
                     "notes.docx" <> pdf_at demo_world row
                     /\ "notes.docx" <> docx_at demo_world row)
    [row_A; row_B]
  /\ files (snd (process_certificates
                   (set_workbook demo_world (demo_header :: [row_A; row_B]))
                   "template.docx" "names.xlsx" true stocked_state))
       !! "notes.docx"
     = Some (Docx demo_template).
Proof.
  assert (H : Forall (fun row => counted row = true ->
                                 "notes.docx" <> pdf_at demo_world row
                                 /\ "notes.docx" <> docx_at demo_world row)
                [row_A; row_B]).
  { repeat constructor; intros E; discriminate E. }
  split; [exact H |].
  rewrite (process_frame demo_world "template.docx" "names.xlsx" true
             demo_header [row_A; row_B] stocked_state "notes.docx" H).
  reflexivity.
Defined.

Lemma process_success_count_witness :
  process_certificates
    (set_workbook demo_world
       (demo_header :: [row_A; [Py.VInt 0; Py.VStr "nobody"]; [Py.VNone]; row_B]))
    "template.docx" "names.xlsx" true empty_state
  = (Ok 2%nat,
     rendered demo_world "B" (demo_fill "Bob Ray")
       (logged true (row_message row_B)
          (rendered demo_world "A" (demo_fill "Ann Lee")
             (logged true (row_message row_A) empty_state))))
  /\ 2%nat = length (List.filter counted
                       [row_A; [Py.VInt 0; Py.VStr "nobody"]; [Py.VNone]; row_B]).
Proof.
  split; [reflexivity |].
  eapply (process_success_count demo_world "template.docx" "names.xlsx" true
            demo_header _ empty_state). reflexivity.
Defined.

Lemma failing_row_is_logged_witness :
  process_certificates (set_workbook failing_world (demo_header :: [row_A]))
    "template.docx" "names.xlsx" true empty_state
  = (Ok 1%nat,
     rendered demo_world "A" (demo_fill "Ann Lee")
       (logged true (row_message row_A) empty_state))
  /\ Py.truthy (Py.VStr "B") = true
  /\ log (snd (process_certificates
                 (set_workbook failing_world
                    (demo_header :: [row_A] ++ row_B :: [row_C]))
                 "template.docx" "names.xlsx" true empty_state))
     = ["Processing: A -> ann lee"; "Processing: B -> bob ray"].
Proof.
  split; [reflexivity |]. split; [reflexivity |].
  exact (failing_row_is_logged failing_world "template.docx" "names.xlsx"
           demo_header [row_A] [row_C] (Py.VStr "B") (Py.VStr "bob ray") []
           empty_state _ _ 1%nat ConvertError eq_refl eq_refl eq_refl).
Defined.

Lemma on_generate_rejected_witness :
  paths_valid demo_host (set_run_state stocked_state
                           (message_box "" "" ICON_ERROR
                              {| template_ctrl := "template.docx";
                                 excel_ctrl := "  "; output_ctrl := "out";
                                 generate_btn := true; shown := [];
                                 run_state := empty_state |})) = false
  /\ run_state
       (on_generate demo_world demo_host
          (set_run_state stocked_state
             (message_box "" "" ICON_ERROR
                {| template_ctrl := "template.docx";
                   excel_ctrl := "  "; output_ctrl := "out";
                   generate_btn := true; shown := [];
                   run_state := empty_state |})))
     = stocked_state.
Proof.
  split; [reflexivity |].
  apply (on_generate_rejected demo_world demo_host
           (set_run_state stocked_state
              (message_box "" "" ICON_ERROR
                 {| template_ctrl := "template.docx";
                    excel_ctrl := "  "; output_ctrl := "out";
                    generate_btn := true; shown := [];
                    run_state := empty_state |}))).
  reflexivity.
Defined.

Lemma on_generate_report_witness :
  paths_valid demo_host demo_frame = true
  /\ log (run_state
            (on_generate
               (set_workbook demo_world
                  (demo_header :: [row_A; [Py.VInt 0; Py.VStr "nobody"]; row_B]))
               demo_host demo_frame))
     = ["Starting generation..."; "Processing: A -> ann lee";
        "Processing: B -> bob ray"; "Completed. Generated 2 certificates."].
Proof.
  split; [reflexivity |].
  destruct (on_generate_report
              (set_workbook demo_world
                 (demo_header :: [row_A; [Py.VInt 0; Py.VStr "nobody"]; row_B]))
              demo_host demo_frame demo_header
              [row_A; [Py.VInt 0; Py.VStr "nobody"]; row_B] 2%nat _
              eq_refl eq_refl eq_refl) as (_ & _ & Hlog & _).
  rewrite Hlog. reflexivity.
Defined.

(** ** Names in ASCII *)

Section AsciiNames.
Import Py.

Lemma title_char_ascii_lower (b : bool) (c : ascii) :
  (code c <? 128)%N = true ->
  exists n,
    (if b then tolower_full c else totitle_full c) = [n]
    /\ lower_code n = lower_code (code c).
Proof.
  destruct b; destruct c as [[] [] [] [] [] [] [] []]; intros H;
    vm_compute in H; try discriminate H; by eexists.
Qed.

Lemma title_from_ascii (b : bool) (s : string) :
  ascii_only s = true ->
  length (title_from b s) = String.length s
  /\ lower_ascii (title_from b s) = lower_ascii (wide s).
Proof.
  revert b. induction s as [|c s IH]; intros b; [done |].
  cbn [ascii_only title_from]. intros [Hc Hs]%andb_true_iff.
  destruct (title_char_ascii_lower b c Hc) as (n & -> & Hn).
  destruct (IH (iscased c) Hs) as [Hlen Hlow].
  cbn [app length String.length wide lower_ascii map].
  split; [by rewrite Hlen |]. unfold lower_ascii in Hlow. by rewrite Hn, Hlow.
Qed.

(** X4: of a name given as ASCII text that is not blank, the display text
    is the name without the whitespace at its ends, up to the case of its
    letters: it has the same length and the same lower-case form. *)
Theorem display_text_changes_case_only (s : string) :
  ascii_only s = true ->
  strip s <> "" ->
  length (display_text (VStr s)) = String.length (strip s)
  /\ lower_ascii (display_text (VStr s)) = lower_ascii (wide (strip s)).
Proof.
  intros Hascii Hs. rewrite display_text_amended. unfold amended_display_text.
  assert (Hif : strip (if truthy (VStr s) then str (VStr s) else "") = strip s).
  { destruct (truthy (VStr s)) eqn:E; [done |]. destruct s; done. }
  rewrite Hif. cbn zeta. case_decide; [done |]. unfold title.
  by apply title_from_ascii, ascii_only_strip.
Qed.

Lemma display_text_changes_case_only_witness :
  ascii_only " mARY o'neil " = true
  /\ strip " mARY o'neil " <> ""
  /\ display_text (VStr " mARY o'neil ") = wide "Mary O'Neil"
  /\ lower_ascii (display_text (VStr " mARY o'neil "))
     = lower_ascii (wide (strip " mARY o'neil ")).
Proof.
  split; [reflexivity |]. split; [discriminate |]. split; [reflexivity |].
  apply (display_text_changes_case_only " mARY o'neil "); [reflexivity |].
  discriminate.
Defined.

End AsciiNames.

(** ** Numbers in cells *)

Section Numbers.
Import Py.

Lemma plain_char_facts (c : ascii) :
  plain_char c = true ->
  Ascii.eqb c "+" = false /\ isspace c = false
  /\ tolower_full c = [code c] /\ totitle_full c = [code c]
  /\ iscased c = false.
Proof. by destruct c as [[] [] [] [] [] [] [] []]. Qed.

Lemma string_of_uint_plain (d : Decimal.uint) :
  all_chars plain_char (NilEmpty.string_of_uint d) = true.
Proof. induction d; cbn [NilEmpty.string_of_uint all_chars]; by rewrite ?IHd. Qed.

Lemma str_int_plain (z : Z) :
  all_chars plain_char (str (VInt z)) = true /\ str (VInt z) <> "".
Proof.
  cbn [str]. unfold NilZero.string_of_int, NilZero.string_of_uint.
  destruct (Z.to_int z) as [d|d]; destruct d; cbn [all_chars];
    rewrite ?string_of_uint_plain; done.
Qed.

Lemma plain_contains (s : string) :
  all_chars plain_char s = true -> contains "+" s = false.
Proof.
  induction s as [|c s IH]; [done |]. cbn [all_chars contains].
  intros [Hc Hs]%andb_true_iff.
  destruct (plain_char_facts c Hc) as (-> & _). by apply IH.
Qed.

Lemma plain_starts (s : string) :
  all_chars plain_char s = true -> starts_with_space s = false.
Proof.
  destruct s as [|c s]; [done |]. cbn [all_chars].
  intros [Hc _]%andb_true_iff. unfold starts_with_space. cbn.
  by destruct (plain_char_facts c Hc) as (_ & -> & _).
Qed.

Lemma plain_ends (s : string) :
  all_chars plain_char s = true -> ends_with_space s = false.
Proof.
  unfold ends_with_space. induction s as [|c s IH]; [done |].
  cbn [all_chars last_char]. intros [Hc Hs]%andb_true_iff.
  destruct s as [|d s]; [|by apply IH].
  by destruct (plain_char_facts c Hc) as (_ & -> & _).
Qed.

Lemma plain_title_from (b : bool) (s : string) :
  all_chars plain_char s = true -> title_from b s = wide s.
Proof.
  revert b. induction s as [|c s IH]; intros b; [done |].
  cbn [all_chars title_from wide]. intros [Hc Hs]%andb_true_iff.
  destruct (plain_char_facts c Hc) as (_ & _ & -> & -> & ->).
  rewrite IH by done. by destruct b.
Qed.

(** X19: an identifier that is a number has its decimal text as stem: the
    sanitizer has nothing to remove from it. *)
Theorem sanitize_integer (z : Z) :
  sanitize_certificate_id (VInt z) = str (VInt z).
Proof.
  destruct (str_int_plain z) as [Hplain _].
  unfold sanitize_certificate_id.
  rewrite replace1_clean by by apply plain_contains.
  apply strip_clean; [by apply plain_starts | by apply plain_ends].
Qed.

(** X20: a name that is a number other than zero is written as its
    decimal text, unchanged by the title-casing. *)
Theorem display_text_integer (z : Z) :
  z <> 0 -> display_text (VInt z) = wide (str (VInt z)).
Proof.
  intros Hz. destruct (str_int_plain z) as [Hplain Hne].
  rewrite display_text_amended. unfold amended_display_text.
  assert (Ht : truthy (VInt z) = true).
  { cbn [truthy]. by apply negb_true_iff, Z.eqb_neq. }
  rewrite Ht.
  rewrite strip_clean by (by apply plain_starts || by apply plain_ends).
  cbn zeta. case_decide; [done |]. by apply plain_title_from.
Qed.

Lemma display_text_integer_witness :
  (-1207) <> 0 /\ display_text (VInt (-1207)) = wide "-1207".
Proof.
  split; [discriminate |].
  apply (display_text_integer (-1207)). discriminate.
Defined.

End Numbers.

Lemma rendered_file_of_row_witness :
  process_certificates (set_workbook dotted_world dotted_sheet)
    "template.docx" "names.xlsx" false empty_state
  = (Ok 2%nat,
     rendered dotted_world "./A" (demo_fill "Bob Ray")
       (rendered dotted_world "A" (demo_fill "Ann Lee") empty_state))
  /\ files (rendered dotted_world "./A" (demo_fill "Bob Ray")
              (rendered dotted_world "A" (demo_fill "Ann Lee") empty_state))
       !! "A.pdf"
     = Some (Pdf (demo_fill "Bob Ray")).
Proof.
  split; [reflexivity |].
  exact (rendered_file_of_row dotted_world "template.docx" "names.xlsx" false
           [Py.VStr "Id"; Py.VStr "Name"] (tail dotted_sheet) empty_state
           (rendered dotted_world "./A" (demo_fill "Bob Ray")
              (rendered dotted_world "A" (demo_fill "Ann Lee") empty_state))
           2%nat "A.pdf" eq_refl).
Defined.

Lemma empty_stem_rows_collide_witness :
  apart demo_world
  /\ Py.truthy (Py.VStr "+") = true
  /\ sanitize_certificate_id (Py.VStr "+") = ""
  /\ Py.truthy (Py.VStr " + +") = true
  /\ sanitize_certificate_id (Py.VStr " + +") = ""
  /\ process_certificates
       (set_workbook demo_world
          (demo_header :: [row_A] ++ [Py.VStr "+"; Py.VStr "ann lee"; Py.VInt 7]
                          :: [row_B] ++ [Py.VStr " + +"; Py.VStr "bob ray"]
                          :: [row_C]))
       "template.docx" "names.xlsx" false empty_state
     = (Ok 5%nat,
        rendered demo_world "C" (demo_fill "Cy")
          (rendered demo_world "" (demo_fill "Bob Ray")
             (rendered demo_world "B" (demo_fill "Bob Ray")
                (rendered demo_world "" (demo_fill "Ann Lee")
                   (rendered demo_world "A" (demo_fill "Ann Lee") empty_state)))))
  /\ files (rendered demo_world "C" (demo_fill "Cy")
              (rendered demo_world "" (demo_fill "Bob Ray")
                 (rendered demo_world "B" (demo_fill "Bob Ray")
                    (rendered demo_world "" (demo_fill "Ann Lee")
                       (rendered demo_world "A" (demo_fill "Ann Lee")
                          empty_state))))) !! ".pdf"
     = Some (Pdf (demo_fill "Bob Ray")).
Proof.
  split; [exact apart_demo_world |]. repeat (split; [reflexivity |]).
  assert (Hrun :
    process_certificates
      (set_workbook demo_world
         (demo_header :: [row_A] ++ [Py.VStr "+"; Py.VStr "ann lee"; Py.VInt 7]
                         :: [row_B] ++ [Py.VStr " + +"; Py.VStr "bob ray"]
                         :: [row_C]))
      "template.docx" "names.xlsx" false empty_state
    = (Ok 5%nat,
       rendered demo_world "C" (demo_fill "Cy")
         (rendered demo_world "" (demo_fill "Bob Ray")
            (rendered demo_world "B" (demo_fill "Bob Ray")
               (rendered demo_world "" (demo_fill "Ann Lee")
                  (rendered demo_world "A" (demo_fill "Ann Lee") empty_state))))))
    by reflexivity.
  destruct (empty_stem_rows_collide demo_world "template.docx" "names.xlsx"
              false demo_header [row_A] [row_B] [row_C]
              (Py.VStr "+") (Py.VStr "ann lee") [Py.VInt 7]
              (Py.VStr " + +") (Py.VStr "bob ray") []
              empty_state
              (rendered demo_world "C" (demo_fill "Cy")
                 (rendered demo_world "" (demo_fill "Bob Ray")
                    (rendered demo_world "B" (demo_fill "Bob Ray")
                       (rendered demo_world "" (demo_fill "Ann Lee")
                          (rendered demo_world "A" (demo_fill "Ann Lee")
                             empty_state)))))
              5%nat apart_demo_world
              eq_refl eq_refl eq_refl eq_refl Hrun)
    as (_ & _ & (doc2 & Hdoc2 & Hpdf & _) & _).
  injection Hdoc2 as <-. etrans; [exact Hpdf | reflexivity].
Defined.
